(** * Robotaxi ride-history exporter: a shallow embedding and its properties

    The development follows the two source files of the repository:
    [robotaxi_history.py] (the command-line tool: PKCE login, token refresh,
    paginated ride fetch, CSV/JSON export) and [web/server.py] (the
    development proxy).  Python values coming from JSON are embedded as the
    inductive type [json]; files, the network and the clock are explicit:
    the file system is a finite map from paths to contents, every HTTP
    request is appended to a log, and the answers of the remote services are
    given by an oracle that sees the requests issued so far.  Console output
    and the browser launch have no influence on any value and are left out. *)

From Stdlib Require Import ZArith List String Ascii Lia Bool.
From stdpp Require Import base gmap strings list pretty.

Import ListNotations.
Set Warnings "-register-all".
Local Open Scope string_scope.

(** ** Python values obtained from JSON *)

Module Json.

(** [json.load] and [response.json()] yield [None], booleans, numbers,
    strings, lists and dicts.  Non-integer numbers do not occur in any
    decision of the program and are not represented.  A dict is kept as the
    list of its items; a key is looked up from the left. *)
Inductive json : Type :=
| JNull
| JBool (b : bool)
| JNum (n : Z)
| JStr (s : string)
| JArr (l : list json)
| JObj (items : list (string * json)).

(** Python truth value ([if x:], [not x], [x or y]). *)
Definition truthy (v : json) : bool :=
  match v with
  | JNull => false
  | JBool b => b
  | JNum n => negb (Z.eqb n 0)
  | JStr s => negb (String.eqb s "")
  | JArr l => match l with [] => false | _ => true end
  | JObj items => match items with [] => false | _ => true end
  end.

(** [x or y] *)
Definition py_or (x y : json) : json := if truthy x then x else y.

Definition isinstance_dict (v : json) : bool :=
  match v with JObj _ => true | _ => false end.

Definition isinstance_list (v : json) : bool :=
  match v with JArr _ => true | _ => false end.

(** Item lookup in a dict. *)
Fixpoint lookup_item (items : list (string * json)) (key : string) : option json :=
  match items with
  | [] => None
  | (k, v) :: rest => if String.eqb k key then Some v else lookup_item rest key
  end.

(** [key in d] *)
Definition contains (items : list (string * json)) (key : string) : bool :=
  match lookup_item items key with Some _ => true | None => false end.

(** [d.get(key, default)] *)
Definition dict_get (items : list (string * json)) (key : string) (default : json) : json :=
  match lookup_item items key with Some v => v | None => default end.

(** [len(x)]: defined on strings, lists and dicts, a [TypeError] otherwise. *)
Definition py_len (v : json) : option nat :=
  match v with
  | JStr s => Some (String.length s)
  | JArr l => Some (List.length l)
  | JObj items => Some (List.length items)
  | _ => None
  end.

(** The elements produced by iterating over a value ([list.extend]):
    the elements of a list, the keys of a dict, the characters of a
    string; other values are not iterable. *)
Definition py_iter (v : json) : option (list json) :=
  match v with
  | JStr s => Some (map (fun c => JStr (String c EmptyString)) (list_ascii_of_string s))
  | JArr l => Some l
  | JObj items => Some (map (fun kv => JStr (fst kv)) items)
  | _ => None
  end.

End Json.
Export Json.

(** ** SHA-256 (FIPS 180-4), the digest behind [hashlib.sha256] *)

Module Sha256.

Local Open Scope Z_scope.

Definition w32 (x : Z) : Z := x mod 2^32.
Definition add32 (x y : Z) : Z := w32 (x + y).
Definition rotr (n x : Z) : Z := w32 (Z.lor (Z.shiftr x n) (Z.shiftl x (32 - n))).
Definition shr (n x : Z) : Z := Z.shiftr x n.
Definition not32 (x : Z) : Z := 2^32 - 1 - x.

Definition Ch (x y z : Z) : Z := Z.lxor (Z.land x y) (Z.land (not32 x) z).
Definition Maj (x y z : Z) : Z :=
  Z.lxor (Z.lxor (Z.land x y) (Z.land x z)) (Z.land y z).
Definition Sigma0 (x : Z) : Z := Z.lxor (Z.lxor (rotr 2 x) (rotr 13 x)) (rotr 22 x).
Definition Sigma1 (x : Z) : Z := Z.lxor (Z.lxor (rotr 6 x) (rotr 11 x)) (rotr 25 x).
Definition sigma0 (x : Z) : Z := Z.lxor (Z.lxor (rotr 7 x) (rotr 18 x)) (shr 3 x).
Definition sigma1 (x : Z) : Z := Z.lxor (Z.lxor (rotr 17 x) (rotr 19 x)) (shr 10 x).

(** The constants of the standard are given by their definition: the
    first 32 bits of the fractional parts of the cube roots (for [K]) and of
    the square roots (for [H0]) of the first primes. *)
Definition is_prime (n : Z) : bool :=
  forallb (fun d => negb (n mod d =? 0)) (map Z.of_nat (seq 2 (Z.to_nat n - 2))).

Definition primes : list Z :=
  List.filter is_prime (map Z.of_nat (seq 2 310)).

(** The integer cube root, found bit by bit from the top. *)
Definition cube_root (n : Z) : Z :=
  fold_left
    (fun r b => let r' := r + 2 ^ Z.of_nat b in if r' * r' * r' <=? n then r' else r)
    (rev (seq 0 40)) 0.

Definition K : list Z :=
  map (fun p => w32 (cube_root (p * 2 ^ 96))) primes.

Definition H0 : list Z :=
  map (fun p => w32 (Z.sqrt (p * 2 ^ 64))) (firstn 8 primes).

(** Big-endian bytes of a word, most significant first. *)
Fixpoint be_bytes (n : nat) (x : Z) : list Z :=
  match n with
  | O => []
  | S k => Z.land (Z.shiftr x (8 * Z.of_nat k)) 255 :: be_bytes k x
  end.

Definition be_word (bs : list Z) : Z :=
  fold_left (fun acc b => Z.lor (Z.shiftl acc 8) b) bs 0.

(** Padding: the bit 1, zeros up to 56 modulo 64, the bit length on 8 bytes. *)
Definition pad (msg : list Z) : list Z :=
  let len := Z.of_nat (List.length msg) in
  let zeros := Z.to_nat ((55 - len) mod 64) in
  msg ++ [128] ++ repeat 0 zeros ++ be_bytes 8 (8 * len).

Fixpoint words (n : nat) (bs : list Z) : list Z :=
  match n with
  | O => []
  | S k => be_word (firstn 4 bs) :: words k (skipn 4 bs)
  end.

(** The message schedule, most recent word first. *)
Fixpoint schedule (n : nat) (ws : list Z) : list Z :=
  match n with
  | O => ws
  | S k =>
      let w := add32 (add32 (sigma1 (nth 1 ws 0)) (nth 6 ws 0))
                     (add32 (sigma0 (nth 14 ws 0)) (nth 15 ws 0)) in
      schedule k (w :: ws)
  end.

Definition round (st : list Z) (kw : Z * Z) : list Z :=
  match st with
  | [a; b; c; d; e; f; g; h] =>
      let t1 := add32 (add32 (add32 h (Sigma1 e)) (add32 (Ch e f g) (fst kw))) (snd kw) in
      let t2 := add32 (Sigma0 a) (Maj a b c) in
      [add32 t1 t2; a; b; c; add32 d t1; e; f; g]
  | _ => st
  end.

Fixpoint zip_add (xs ys : list Z) : list Z :=
  match xs, ys with
  | x :: xs', y :: ys' => add32 x y :: zip_add xs' ys'
  | _, _ => []
  end.

Definition compress (h : list Z) (block : list Z) : list Z :=
  let w := rev (schedule 48 (rev (words 16 block))) in
  zip_add h (fold_left round (combine K w) h).

Fixpoint blocks (n : nat) (h : list Z) (bs : list Z) : list Z :=
  match n with
  | O => h
  | S k => blocks k (compress h (firstn 64 bs)) (skipn 64 bs)
  end.

(** [hashlib.sha256(msg).digest()] *)
Definition digest (msg : list Z) : list Z :=
  let p := pad msg in
  flat_map (be_bytes 4) (blocks (List.length p / 64) H0 p).

End Sha256.

(** ** Base 64 (module [base64]) and the string helpers used with it *)

Module Base64.

Local Open Scope Z_scope.

Definition alphabet : list ascii :=
  list_ascii_of_string
    "ABCDEFGHIJKLMNOPQRSTUVWXYZabcdefghijklmnopqrstuvwxyz0123456789+/".

Definition digit (i : Z) : ascii := nth (Z.to_nat (Z.land i 63)) alphabet "A"%char.

(** [base64.b64encode]: three bytes give four digits; a final group of
    one or two bytes is completed with [=]. *)
Fixpoint b64encode (bs : list Z) : list ascii :=
  match bs with
  | [] => []
  | [a] =>
      [digit (Z.shiftr a 2); digit (Z.shiftl a 4); "="%char; "="%char]
  | [a; b] =>
      [digit (Z.shiftr a 2); digit (Z.lor (Z.shiftl a 4) (Z.shiftr b 4));
       digit (Z.shiftl b 2); "="%char]
  | a :: b :: c :: rest =>
      digit (Z.shiftr a 2) :: digit (Z.lor (Z.shiftl a 4) (Z.shiftr b 4))
        :: digit (Z.lor (Z.shiftl b 2) (Z.shiftr c 6)) :: digit c
        :: b64encode rest
  end.

(** The translation table of [urlsafe_b64encode]: [+] to [-], [/] to [_]. *)
Definition urlsafe_char (c : ascii) : ascii :=
  if Ascii.eqb c "+" then "-"%char
  else if Ascii.eqb c "/" then "_"%char
  else c.

Definition urlsafe_b64encode (bs : list Z) : list ascii :=
  map urlsafe_char (b64encode bs).

(** [s.rstrip(c)]: every trailing occurrence of [c] is removed. *)
Fixpoint rstrip (c : ascii) (s : list ascii) : list ascii :=
  match s with
  | [] => []
  | x :: t =>
      match rstrip c t with
      | [] => if Ascii.eqb x c then [] else [x]
      | t' => x :: t'
      end
  end.

(** The reference encoding of RFC 7636: base64url without padding,
    written directly from RFC 4648, section 5. *)
Definition url_alphabet : list ascii :=
  list_ascii_of_string
    "ABCDEFGHIJKLMNOPQRSTUVWXYZabcdefghijklmnopqrstuvwxyz0123456789-_".

Definition url_digit (i : Z) : ascii :=
  nth (Z.to_nat (Z.land i 63)) url_alphabet "A"%char.

Fixpoint base64url_nopad (bs : list Z) : list ascii :=
  match bs with
  | [] => []
  | [a] => [url_digit (Z.shiftr a 2); url_digit (Z.shiftl a 4)]
  | [a; b] =>
      [url_digit (Z.shiftr a 2); url_digit (Z.lor (Z.shiftl a 4) (Z.shiftr b 4));
       url_digit (Z.shiftl b 2)]
  | a :: b :: c :: rest =>
      url_digit (Z.shiftr a 2) :: url_digit (Z.lor (Z.shiftl a 4) (Z.shiftr b 4))
        :: url_digit (Z.lor (Z.shiftl b 2) (Z.shiftr c 6)) :: url_digit c
        :: base64url_nopad rest
  end.

End Base64.

(** [str.encode()]: the bytes of a string. *)
Definition encode (s : string) : list Z :=
  map (fun c => Z.of_N (N_of_ascii c)) (list_ascii_of_string s).

(** ** The world the program runs in *)

Module Runtime.

(** An HTTP request as the program builds it.  The bearer token of a GET is
    kept as the Python value that is formatted into the header. *)
Inductive request : Type :=
| GET (url : string) (bearer : json) (pageNo : nat) (timeout : option nat)
| POST (url : string) (data : list (string * json)).

(** A [requests.Response]: the status and what [response.json()] gives
    ([None] when the body is not JSON). *)
Record response : Type := { status_code : Z; body_json : option json }.

(** What a call of [requests.get] or [requests.post] results in. *)
Inductive reply : Type :=
| Answered (r : response)
| ConnectionFailed.

(** The content of a file: JSON text (as [json.dump] writes it and
    [json.load] reads it), the rows of a CSV file, or other text. *)
Inductive file : Type :=
| JsonText (v : json)
| CsvRows (rows : list (list json))
| OtherText.

Record world : Type := {
  files : gmap string file;
  sent : list request
}.

(** What is outside the program: the remote services (their answer may
    depend on the requests sent before), the standard-library parsing of a
    callback URL ([parse_qs(urlparse(url).query)]), the random source and
    the clock. *)
Record environment : Type := {
  remote : list request -> request -> reply;
  callback_query : string -> list (string * list string);
  token_bytes : nat -> list Z;
  now_isoformat : string;
  now_strftime : string
}.

Inductive exn : Type :=
| RequestException
| RequestsJSONDecodeError
| JSONDecodeError
| FileNotFoundError
| AttributeError
| TypeError
| IndexError.

(** [requests.exceptions.JSONDecodeError] derives from
    [RequestException]. *)
Definition is_RequestException (e : exn) : bool :=
  match e with
  | RequestException | RequestsJSONDecodeError => true
  | _ => false
  end.

(** How a call ends: it returns, raises, leaves through [sys.exit], or is
    still looping when the fuel of the model runs out. *)
Inductive outcome (A : Type) : Type :=
| Returns (a : A)
| Raises (e : exn)
| Exits (code : Z)
| Unfinished.

Arguments Returns {A} a.
Arguments Raises {A} e.
Arguments Exits {A} code.
Arguments Unfinished {A}.

Definition py (A : Type) : Type := world -> outcome A * world.

Definition ret {A} (a : A) : py A := fun w => (Returns a, w).
Definition raise {A} (e : exn) : py A := fun w => (Raises e, w).
Definition sys_exit {A} (code : Z) : py A := fun w => (Exits code, w).
Definition unfinished {A} : py A := fun w => (Unfinished, w).

Definition bind {A B} (m : py A) (k : A -> py B) : py B :=
  fun w =>
    match m w with
    | (Returns a, w') => k a w'
    | (Raises e, w') => (Raises e, w')
    | (Exits c, w') => (Exits c, w')
    | (Unfinished, w') => (Unfinished, w')
    end.

(** [try: m  except <caught>: handler] *)
Definition try_except {A} (m : py A) (caught : exn -> bool) (handler : py A) : py A :=
  fun w =>
    match m w with
    | (Raises e, w') => if caught e then handler w' else (Raises e, w')
    | r => r
    end.

Declare Scope py_scope.
Delimit Scope py_scope with py.
Notation "'let*' x ':=' m 'in' k" := (bind m (fun x => k))
  (at level 10, x pattern, m at level 100, k at level 200) : py_scope.

Local Open Scope py_scope.

(** *** Files *)

Definition write_file (path : string) (f : file) : py unit :=
  fun w => (Returns tt, {| files := <[path := f]> (files w); sent := sent w |}).

(** [json.load(open(path))]: a missing file and a file that does not hold
    JSON text raise. *)
Definition json_load (path : string) : py json :=
  fun w =>
    match files w !! path with
    | None => (Raises FileNotFoundError, w)
    | Some (JsonText v) => (Returns v, w)
    | Some _ => (Raises JSONDecodeError, w)
    end.

(** [os.remove(path)] *)
Definition os_remove (path : string) : py unit :=
  fun w =>
    match files w !! path with
    | None => (Raises FileNotFoundError, w)
    | Some _ => (Returns tt, {| files := delete path (files w); sent := sent w |})
    end.

(** [writer.writerow(row)] on an open CSV file. *)
Definition csv_writerow (path : string) (row : list json) : py unit :=
  fun w =>
    let rows := match files w !! path with Some (CsvRows rows) => rows | _ => [] end in
    (Returns tt, {| files := <[path := CsvRows (rows ++ [row])]> (files w); sent := sent w |}).

(** *** Values *)

(** [v.get(key, default)]: only dicts have the method. *)
Definition method_get (v : json) (key : string) (default : json) : py json :=
  match v with
  | JObj items => ret (dict_get items key default)
  | _ => raise AttributeError
  end.

Definition len (v : json) : py nat :=
  match py_len v with Some n => ret n | None => raise TypeError end.

Definition iter (v : json) : py (list json) :=
  match py_iter v with Some l => ret l | None => raise TypeError end.

(** *** Network *)

Section Network.
Variable E : environment.

Definition send (rq : request) : py response :=
  fun w =>
    let w' := {| files := files w; sent := sent w ++ [rq] |} in
    match remote E (sent w) rq with
    | Answered r => (Returns r, w')
    | ConnectionFailed => (Raises RequestException, w')
    end.

Definition requests_get (url : string) (bearer : json) (pageNo : nat)
    (timeout : option nat) : py response :=
  send (GET url bearer pageNo timeout).

Definition requests_post (url : string) (data : list (string * json)) : py response :=
  send (POST url data).
End Network.

(** [response.json()] *)
Definition response_json (r : response) : py json :=
  match body_json r with
  | Some v => ret v
  | None => raise RequestsJSONDecodeError
  end.

End Runtime.
Export Runtime.

(** ** [robotaxi_history.py] *)

Module robotaxi_history.

Local Open Scope py_scope.

Definition AUTH_BASE_URL : string := "https://auth.tesla.com/oauth2/v3".
Definition CLIENT_ID : string := "ownerapi".
Definition REDIRECT_URI : string := "https://auth.tesla.com/void/callback".
Definition SCOPES : string := "openid email offline_access phone".

Definition API_ENDPOINTS : list (string * string) :=
  [ ("https://ownership.tesla.com", "/mobile-app/ride/history");
    ("https://akamai-apigateway-charging-ownership.tesla.com", "/mobile-app/ride/history") ].

Definition PAGE_SIZE : nat := 100.

(** The two files live in the home directory; the paths are kept as they
    are written, before [expanduser]. *)
Definition PKCE_FILE : string := "~/.robotaxi_pkce.json".
Definition TOKENS_FILE : string := "~/.robotaxi_tokens.json".

Section Program.
Variable E : environment.

(** [secrets.token_urlsafe(nbytes)] *)
Definition token_urlsafe (nbytes : nat) : string :=
  string_of_list_ascii
    (Base64.rstrip "="%char (Base64.urlsafe_b64encode (token_bytes E nbytes))).

(** The challenge expression of [generate_pkce_pair]. *)
Definition code_challenge_of (code_verifier : string) : string :=
  string_of_list_ascii
    (Base64.rstrip "="%char
       (Base64.urlsafe_b64encode (Sha256.digest (encode code_verifier)))).

Definition generate_pkce_pair : string * string :=
  let code_verifier := token_urlsafe 32 in
  let code_challenge := code_challenge_of code_verifier in
  (code_verifier, code_challenge).

Definition save_pkce (code_verifier : string) : py unit :=
  write_file PKCE_FILE (JsonText (JObj [("code_verifier", JStr code_verifier)])).

Definition load_pkce : py json :=
  try_except
    (let* data := json_load PKCE_FILE in
     method_get data "code_verifier" JNull)
    (fun e => match e with FileNotFoundError | JSONDecodeError => true | _ => false end)
    (ret JNull).

Definition clear_pkce : py unit :=
  try_except (os_remove PKCE_FILE)
    (fun e => match e with FileNotFoundError => true | _ => false end)
    (ret tt).

Definition start_auth : py unit :=
  let '(code_verifier, code_challenge) := generate_pkce_pair in
  save_pkce code_verifier.

(** [params['code']] of the parsed query. *)
Fixpoint query_lookup (params : list (string * list string)) (key : string)
    : option (list string) :=
  match params with
  | [] => None
  | (k, vs) :: rest => if String.eqb k key then Some vs else query_lookup rest key
  end.

Definition complete_auth (callback_url : string) : py (json * json) :=
  let* code_verifier := load_pkce in
  if negb (truthy code_verifier) then sys_exit 1%Z
  else
    let params := callback_query E callback_url in
    match query_lookup params "code" with
    | None => sys_exit 1%Z
    | Some values =>
        let* auth_code :=
          match values with
          | [] => raise IndexError
          | c :: _ => ret c
          end in
        let token_url := AUTH_BASE_URL ++ "/token" in
        let token_data :=
          [ ("grant_type", JStr "authorization_code");
            ("client_id", JStr CLIENT_ID);
            ("code", JStr auth_code);
            ("code_verifier", code_verifier);
            ("redirect_uri", JStr REDIRECT_URI) ] in
        let* response := requests_post E token_url token_data in
        let* _ := clear_pkce in
        if negb (Z.eqb (status_code response) 200) then sys_exit 1%Z
        else
          let* tokens := response_json response in
          let* access_token := method_get tokens "access_token" JNull in
          let* refresh_token := method_get tokens "refresh_token" JNull in
          ret (access_token, refresh_token)
    end.

Definition authenticate_with_refresh_token (refresh_token : json) : py (json * json) :=
  let token_url := AUTH_BASE_URL ++ "/token" in
  let token_data :=
    [ ("grant_type", JStr "refresh_token");
      ("client_id", JStr CLIENT_ID);
      ("refresh_token", refresh_token) ] in
  let* response := requests_post E token_url token_data in
  if negb (Z.eqb (status_code response) 200) then ret (JNull, JNull)
  else
    let* tokens := response_json response in
    let* access_token := method_get tokens "access_token" JNull in
    let* new_refresh := method_get tokens "refresh_token" JNull in
    ret (access_token, new_refresh).

(** The [for] loop of [get_ride_history] over the candidates: a 200
    answer returns from the function, anything else goes on with the
    next candidate. *)
Fixpoint probe (access_token : json) (page : nat) (candidates : list (string * string))
    : py (json * option (string * string)) :=
  match candidates with
  | [] => ret (JNull, None)
  | (base_url, endpoint) :: rest =>
      let url := base_url ++ endpoint in
      let* found :=
        try_except
          (let* response := requests_get E url access_token page (Some 10%nat) in
           if Z.eqb (status_code response) 200 then
             let* data := response_json response in
             ret (Some (data, Some (base_url, endpoint)))
           else ret None)
          is_RequestException
          (ret None) in
      match found with
      | Some result => ret result
      | None => probe access_token page rest
      end
  end.

Definition get_ride_history (access_token : json) (page : nat)
    (working_endpoint : option (string * string))
    : py (json * option (string * string)) :=
  match working_endpoint with
  | Some (base_url, endpoint) =>
      let url := base_url ++ endpoint in
      let* response := requests_get E url access_token page None in
      if Z.eqb (status_code response) 401 then ret (JNull, None)
      else if negb (Z.eqb (status_code response) 200) then ret (JNull, None)
      else
        let* data := response_json response in
        ret (data, working_endpoint)
  | None => probe access_token page API_ENDPOINTS
  end.

(** The response-format cascade of [fetch_all_rides]. *)
Definition extract_rides (data : json) : json :=
  match data with
  | JObj items =>
      match lookup_item items "data" with
      | Some (JObj inner) => dict_get inner "rides" (JArr [])
      | _ => dict_get items "rides" (dict_get items "data" (JArr []))
      end
  | _ => if isinstance_list data then data else JArr []
  end.

Definition is_None (v : json) : bool :=
  match v with JNull => true | _ => false end.

(** The [while True] loop of [fetch_all_rides]; one unit of fuel per
    iteration. *)
Fixpoint fetch_loop (fuel : nat) (access_token : json) (all_rides : list json)
    (page : nat) (working_endpoint : option (string * string)) : py (list json) :=
  match fuel with
  | O => unfinished
  | S fuel' =>
      let* (data, working_endpoint) :=
        get_ride_history access_token page working_endpoint in
      if is_None data then ret all_rides
      else
        let rides := extract_rides data in
        if negb (truthy rides) then ret all_rides
        else
          let* _ := len rides in
          let* items := iter rides in
          let all_rides := (all_rides ++ items)%list in
          let* n := len rides in
          if Nat.ltb n PAGE_SIZE then ret all_rides
          else fetch_loop fuel' access_token all_rides (S page) working_endpoint
  end.

Definition fetch_all_rides (fuel : nat) (access_token : json) : py (list json) :=
  fetch_loop fuel access_token [] 1%nat None.

(** The column list of [export_to_csv]. *)
Definition fieldnames : list string :=
  [ "rideIntegerId";
    "rideId";
    "state";
    "status";
    "rideRequestedAt";
    "rideStartedAt";
    "rideCompletedAt";
    "timestamp";
    "pickupLocationName";
    "pickupLocationLatitude";
    "pickupLocationLongitude";
    "pickupLocationTimezone";
    "dropoffLocationName";
    "dropoffLocationLatitude";
    "dropoffLocationLongitude";
    "dropoffLocationTimezone";
    "dropoffLocationAddressId";
    "totalDistanceMiles";
    "driveDistanceMiles";
    "billedDistanceMiles";
    "totalDurationSeconds";
    "driveDurationSeconds";
    "totalDue";
    "totalDueTaxExcl";
    "estimatedPrice";
    "estimatedPriceCurrencyCode";
    "currencyCode";
    "rideFeeStatus";
    "rideFeeProcessFlag";
    "hasAdhocFee";
    "vin";
    "licensePlate";
    "vehicleModel";
    "countryCode";
    "priceBookGuid";
    "quoteId";
    "txid";
    "route";
    "routeImageUrl";
    "rideEta";
    "fleetCongestionPercent";
    "isValid";
    "invalidReason";
    "billOverrideReason";
    "disputeReason";
    "disputeComment";
    "billingUserId";
    "billingUserUuid";
    "billingUserAddressId";
    "riderSsoId" ].

(** [csv.DictWriter(..., extrasaction='ignore').writerow(rowdict)]: the
    cells are the values of the columns, in column order, with [''] for
    a column the dict lacks; other keys of the dict are not looked at. *)
Definition DictWriter_writerow (path : string) (columns : list string)
    (rowdict : list (string * json)) : py unit :=
  csv_writerow path (map (fun key => dict_get rowdict key (JStr "")) columns).

Definition DictWriter_writeheader (path : string) (columns : list string) : py unit :=
  DictWriter_writerow path columns (map (fun name => (name, JStr name)) columns).

(** [{field: ride.get(field, '') for field in fieldnames}]; a ride that
    is not a dict has no [get]. *)
Definition row_of (ride : json) : py (list (string * json)) :=
  match ride with
  | JObj items => ret (map (fun field => (field, dict_get items field (JStr ""))) fieldnames)
  | _ => raise AttributeError
  end.

Fixpoint write_rides (filename : string) (rides : list json) : py unit :=
  match rides with
  | [] => ret tt
  | ride :: rest =>
      let* row := row_of ride in
      let* _ := DictWriter_writerow filename fieldnames row in
      write_rides filename rest
  end.

Definition export_to_csv (rides : list json) (filename : string) : py unit :=
  if negb (truthy (JArr rides)) then ret tt
  else
    let* _ := write_file filename (CsvRows []) in
    let* _ := DictWriter_writeheader filename fieldnames in
    write_rides filename rides.

Definition save_tokens (access_token refresh_token : json) : py unit :=
  write_file TOKENS_FILE
    (JsonText (JObj [ ("access_token", access_token);
                      ("refresh_token", refresh_token);
                      ("saved_at", JStr (now_isoformat E)) ])).

Definition load_tokens : py (json * json) :=
  try_except
    (let* data := json_load TOKENS_FILE in
     let* access_token := method_get data "access_token" JNull in
     let* refresh_token := method_get data "refresh_token" JNull in
     ret (access_token, refresh_token))
    (fun e => match e with FileNotFoundError | JSONDecodeError => true | _ => false end)
    (ret (JNull, JNull)).

Definition fetch_and_export (fuel : nat) (access_token refresh_token : json) : py unit :=
  let* rides := fetch_all_rides fuel access_token in
  if truthy (JArr rides) then
    let timestamp := now_strftime E in
    let csv_filename := "robotaxi_history_" ++ timestamp ++ ".csv" in
    let json_filename := "robotaxi_history_" ++ timestamp ++ ".json" in
    let* _ := export_to_csv rides csv_filename in
    write_file json_filename (JsonText (JArr rides))
  else ret tt.

(** [sys.argv[1] if len(sys.argv) > 1 else None], and its truth value. *)
Definition given (callback_url : option string) : bool :=
  match callback_url with
  | Some url => negb (String.eqb url "")
  | None => false
  end.

Definition main (fuel : nat) (argv : list string) : py unit :=
  let callback_url := nth_error argv 1 in
  let* (access_token, refresh_token) := load_tokens in
  let* refreshed :=
    if truthy access_token && truthy refresh_token && negb (given callback_url) then
      let* (new_access, new_refresh) := authenticate_with_refresh_token refresh_token in
      if truthy new_access then
        let access_token := new_access in
        let refresh_token := py_or new_refresh refresh_token in
        let* _ := save_tokens access_token refresh_token in
        let* _ := fetch_and_export fuel access_token refresh_token in
        ret true
      else ret false
    else ret false in
  if (refreshed : bool) then ret tt
  else
    match callback_url with
    | Some url =>
        if given callback_url then
          let* (access_token, refresh_token) := complete_auth url in
          let* _ :=
            if truthy refresh_token then save_tokens access_token refresh_token
            else ret tt in
          fetch_and_export fuel access_token refresh_token
        else start_auth
    | None => start_auth
    end.

End Program.

Section Formatting.
(** Built-ins of Python that [format_duration] relies on: [int(s)] for a
    string ([None] when it raises [ValueError]) and [str(v)] for a list or a
    dict. *)
Variable int_of_str : string -> option Z.
Variable str_of_container : json -> string.

(** [int(v)]; [None] when it raises [ValueError] or [TypeError]. *)
Definition py_int (v : json) : option Z :=
  match v with
  | JNum n => Some n
  | JBool b => Some (if b then 1%Z else 0%Z)
  | JStr s => int_of_str s
  | _ => None
  end.

Definition format_duration (seconds : json) : string :=
  if is_None seconds then ""
  else
    match py_int seconds with
    | Some seconds =>
        let hours := (seconds / 3600)%Z in
        let minutes := ((seconds mod 3600) / 60)%Z in
        let secs := (seconds mod 60)%Z in
        if (0 <? hours)%Z then
          pretty hours ++ "h " ++ pretty minutes ++ "m " ++ pretty secs ++ "s"
        else if (0 <? minutes)%Z then
          pretty minutes ++ "m " ++ pretty secs ++ "s"
        else pretty secs ++ "s"
    | None =>
        match seconds with
        | JStr s => s
        | _ => str_of_container seconds
        end
    end.
End Formatting.

End robotaxi_history.

(** ** [web/server.py] *)

Module server.

(** What [urlopen] raises: an [HTTPError] with its status, or another
    exception (an unreachable host, a timeout) with its message. *)
Inductive exception : Type :=
| HTTPError (code : Z)
| OtherError (message : string).

(** What [urlopen] results in: a response whose body is then read, or an
    exception. *)
Inductive upstream : Type :=
| Opened (data : string)
| Throws (e : exception).

(** The body the handler writes: bytes passed through, or the text of
    [json.dumps] of a value. *)
Inductive payload : Type :=
| Bytes (data : string)
| JsonDumps (v : json).

Record reply : Type := {
  status : Z;
  headers : list (string * string);
  body : payload
}.

Record Request : Type := { url : string; request_headers : list (string * string) }.

(** Header names are compared without regard to case: [HTTPMessage.get]
    lowers the name asked for and the name of each header in turn.  Header
    names are ASCII (the parser accepts only printable ASCII before the
    colon), so lowering the letters A to Z is [str.lower] on them. *)
Definition lower_char (c : ascii) : ascii :=
  let n := nat_of_ascii c in
  if ((65 <=? n) && (n <=? 90))%nat then ascii_of_nat (n + 32) else c.

Fixpoint lower (s : string) : string :=
  match s with
  | EmptyString => EmptyString
  | String c rest => String (lower_char c) (lower rest)
  end.

Definition same_header (k name : string) : bool :=
  String.eqb (lower k) (lower name).

(** [self.headers.get(name, default)]: the value of the first header of
    that name. *)
Fixpoint headers_get (hs : list (string * string)) (name default : string) : string :=
  match hs with
  | [] => default
  | (k, v) :: rest => if same_header k name then v else headers_get rest name default
  end.

Section Handler.
(** The upstream hosts (their answer may depend on the requests made
    before) and the [urlparse(path).query] of the standard library. *)
Variable urlopen : list Request -> Request -> upstream.
Variable urlparse_query : string -> string.

Definition endpoints (query : string) : list string :=
  [ "https://ownership.tesla.com/mobile-app/ride/history?" ++ query;
    "https://akamai-apigateway-charging-ownership.tesla.com/mobile-app/ride/history?" ++ query ].

Definition upstream_request (auth_header : string) (url : string) : Request :=
  {| url := url;
     request_headers :=
       [ ("Authorization", auth_header);
         ("Content-Type", "application/json");
         ("Accept", "*/*");
         ("X-Tesla-User-Agent", "TeslaApp/4.36.5-2659/abc123/ios/18.0") ] |}.

(** What leaves the [for] loop: a reply sent from inside it, an
    exception that reaches the outer handlers, or the end of the list. *)
Inductive loop_exit : Type :=
| Sent (r : reply)
| Raised (e : exception)
| Exhausted.

Fixpoint try_endpoints (auth_header : string) (urls : list string)
    (contacted : list Request) : loop_exit * list Request :=
  match urls with
  | [] => (Exhausted, contacted)
  | u :: rest =>
      let req := upstream_request auth_header u in
      let contacted' := (contacted ++ [req])%list in
      match urlopen contacted req with
      | Opened data =>
          (Sent {| status := 200;
                   headers := [ ("Content-Type", "application/json");
                                ("Access-Control-Allow-Origin", "*") ];
                   body := Bytes data |}, contacted')
      | Throws (HTTPError code) =>
          if Z.eqb code 401 then (Raised (HTTPError code), contacted')
          else try_endpoints auth_header rest contacted'
      | Throws e => (Raised e, contacted')
      end
  end.

(** [proxy_rides_request]: the reply and the upstream requests made, in
    order. *)
Definition proxy_rides_request (path : string) (request_headers : list (string * string))
    : reply * list Request :=
  let auth_header := headers_get request_headers "Authorization" "" in
  let query := urlparse_query path in
  match try_endpoints auth_header (endpoints query) [] with
  | (Sent r, contacted) => (r, contacted)
  | (Exhausted, contacted) =>
      ({| status := 502;
          headers := [ ("Content-Type", "application/json") ];
          body := JsonDumps (JObj [("error", JStr "No working endpoint")]) |},
       contacted)
  | (Raised (HTTPError code), contacted) =>
      ({| status := code;
          headers := [ ("Content-Type", "application/json");
                       ("Access-Control-Allow-Origin", "*") ];
          body := JsonDumps (JObj [("error", JStr ("API error: " ++ pretty code))]) |},
       contacted)
  | (Raised (OtherError message), contacted) =>
      ({| status := 500;
          headers := [ ("Content-Type", "application/json") ];
          body := JsonDumps (JObj [("error", JStr message)]) |},
       contacted)
  end.

(** [do_GET]: the proxy for paths under [/api/rides], static files
    ([None] here) for the rest. *)
Definition do_GET (path : string) (request_headers : list (string * string))
    : option (reply * list Request) :=
  if String.prefix "/api/rides" path
  then Some (proxy_rides_request path request_headers)
  else None.

End Handler.

(** *** The token route *)

(** What [urlopen] results in for the token endpoint: the body read from
    the response, an [HTTPError] with its status and the text of its body,
    or another exception with its message. *)
Inductive token_upstream : Type :=
| TokenOpened (data : string)
| TokenHTTPError (code : Z) (error_body : string)
| TokenOtherError (message : string).

(** The POST built by [proxy_token_request]. *)
Record TokenRequest : Type := {
  token_url : string;
  token_data : string;
  token_headers : list (string * string)
}.

(** [self.headers.get(name)], with the same comparison of names. *)
Fixpoint headers_find (hs : list (string * string)) (name : string) : option string :=
  match hs with
  | [] => None
  | (k, v) :: rest => if same_header k name then Some v else headers_find rest name
  end.

(** [self.rfile.read(n)] on a request body that has been received: the
    first [n] bytes; everything for [-1]; a [ValueError] ([None]) for a
    length below [-1]. *)
Definition rfile_read (n : Z) (rfile : string) : option string :=
  if (n <? -1)%Z then None
  else if (n <? 0)%Z then Some rfile
  else Some (String.substring 0 (Z.to_nat n) rfile).

(** What [do_POST] does: a proxied reply with the upstream requests made, or
    [send_error]. *)
Inductive post_result : Type :=
| Replied (r : reply) (contacted : list TokenRequest)
| SendError (code : Z).

Section TokenHandler.
(** The token endpoint, [int(s)] of a header value ([None] for a
    [ValueError]), the message of that [ValueError], and the message of the
    [ValueError] of [read]. *)
Variable urlopen : TokenRequest -> token_upstream.
Variable int_of_str : string -> option Z.
Variable value_error : string -> string.
Variable read_error : string.

(** The part of [proxy_token_request] after the body has been read. *)
Definition send_token_request (body : string) : reply * list TokenRequest :=
  let req :=
    {| token_url := "https://auth.tesla.com/oauth2/v3/token";
       token_data := body;
       token_headers := [ ("Content-Type", "application/x-www-form-urlencoded") ] |} in
  match urlopen req with
  | TokenOpened data =>
      ({| status := 200;
          headers := [ ("Content-Type", "application/json");
                       ("Access-Control-Allow-Origin", "*") ];
          body := Bytes data |}, [req])
  | TokenHTTPError code error_body =>
      ({| status := code;
          headers := [ ("Content-Type", "application/json");
                       ("Access-Control-Allow-Origin", "*") ];
          body := JsonDumps (JObj [("error", JStr error_body)]) |}, [req])
  | TokenOtherError message =>
      ({| status := 500;
          headers := [ ("Content-Type", "application/json") ];
          body := JsonDumps (JObj [("error", JStr message)]) |}, [req])
  end.

(** The part of [proxy_token_request] after [content_length] is known: a
    [read] that raises is answered with 500, like any other exception. *)
Definition forward_token_request (content_length : Z) (rfile : string)
    : reply * list TokenRequest :=
  match rfile_read content_length rfile with
  | Some body => send_token_request body
  | None =>
      ({| status := 500;
          headers := [ ("Content-Type", "application/json") ];
          body := JsonDumps (JObj [("error", JStr read_error)]) |}, [])
  end.

(** [int(self.headers.get('Content-Length', 0))] comes first; a value that
    is not a number raises inside the [try] and is answered with 500. *)
Definition proxy_token_request (request_headers : list (string * string)) (rfile : string)
    : reply * list TokenRequest :=
  match headers_find request_headers "Content-Length" with
  | None => forward_token_request 0%Z rfile
  | Some text =>
      match int_of_str text with
      | Some content_length => forward_token_request content_length rfile
      | None =>
          ({| status := 500;
              headers := [ ("Content-Type", "application/json") ];
              body := JsonDumps (JObj [("error", JStr (value_error text))]) |}, [])
      end
  end.

Definition do_POST (path : string) (request_headers : list (string * string))
    (rfile : string) : post_result :=
  if String.eqb path "/api/token" then
    let (r, contacted) := proxy_token_request request_headers rfile in
    Replied r contacted
  else SendError 404.
End TokenHandler.

(** [do_OPTIONS]: the reply to a CORS preflight. *)
Definition do_OPTIONS : Z * list (string * string) :=
  (200%Z,
   [ ("Access-Control-Allow-Origin", "*");
     ("Access-Control-Allow-Methods", "GET, POST, OPTIONS");
     ("Access-Control-Allow-Headers", "Content-Type, Authorization") ]).

End server.

(** ** Reference definitions used in the statements *)

Module Reference.

(** The extraction of the ride list as an ordered list of strategies, each
    answering with a match or with no match; the first match is the
    result, and no match at all gives the empty list. *)
Definition strategy : Type := json -> option json.

(** The strategies in the words of the specification: each looks for an
    array. *)
Definition as_array (v : option json) : option json :=
  match v with
  | Some (JArr l) => Some (JArr l)
  | _ => None
  end.

(** A nested [data.rides] array, for a payload that is a dict whose
    ['data'] value is a dict. *)
Definition nested_data_rides : strategy := fun payload =>
  match payload with
  | JObj items =>
      match lookup_item items "data" with
      | Some (JObj inner) => as_array (lookup_item inner "rides")
      | _ => None
      end
  | _ => None
  end.

(** A top-level ['rides'] array. *)
Definition top_level_rides : strategy := fun payload =>
  match payload with
  | JObj items => as_array (lookup_item items "rides")
  | _ => None
  end.

(** A top-level ['data'] array. *)
Definition top_level_data : strategy := fun payload =>
  match payload with
  | JObj items => as_array (lookup_item items "data")
  | _ => None
  end.

(** The whole payload, when it is a list. *)
Definition whole_payload : strategy := fun payload =>
  if isinstance_list payload then Some payload else None.

Fixpoint first_match (strategies : list strategy) (payload : json) : json :=
  match strategies with
  | [] => JArr []
  | s :: rest =>
      match s payload with
      | Some rides => rides
      | None => first_match rest payload
      end
  end.

(** The extraction as the specification words it. *)
Definition claimed_extraction (payload : json) : json :=
  first_match [nested_data_rides; top_level_rides; top_level_data; whole_payload] payload.

(** Payloads in which the keys the cascade looks at hold arrays: a dict
    ['data'] has a ['rides'] array; otherwise the top-level ['rides'] is an
    array, or it is absent and the top-level ['data'] is an array or
    absent. *)
Definition is_array (v : option json) : bool :=
  match v with
  | Some (JArr _) => true
  | _ => false
  end.

Definition is_absent (v : option json) : bool :=
  match v with
  | None => true
  | Some _ => false
  end.

Definition array_shaped (payload : json) : bool :=
  match payload with
  | JObj items =>
      match lookup_item items "data" with
      | Some (JObj inner) => is_array (lookup_item inner "rides")
      | data =>
          is_array (lookup_item items "rides")
          || (is_absent (lookup_item items "rides") && (is_array data || is_absent data))
      end
  | _ => true
  end.

(** The requests of the two paths of [get_ride_history]. *)
Definition probe_request (token : json) (page : nat) (c : string * string) : request :=
  GET (fst c ++ snd c) token page (Some 10%nat).

Definition pinned_request (token : json) (c : string * string) (page : nat) : request :=
  GET (fst c ++ snd c) token page None.

(** The world after one more request. *)
Definition after_request (w : world) (rq : request) : world :=
  {| files := files w; sent := sent w ++ [rq] |}.

(** The POST of the code exchange and of the refresh. *)
Definition exchange_request (code_verifier : json) (auth_code : string) : request :=
  POST (robotaxi_history.AUTH_BASE_URL ++ "/token")
    [ ("grant_type", JStr "authorization_code");
      ("client_id", JStr robotaxi_history.CLIENT_ID);
      ("code", JStr auth_code);
      ("code_verifier", code_verifier);
      ("redirect_uri", JStr robotaxi_history.REDIRECT_URI) ].

Definition refresh_request (refresh_token : json) : request :=
  POST (robotaxi_history.AUTH_BASE_URL ++ "/token")
    [ ("grant_type", JStr "refresh_token");
      ("client_id", JStr robotaxi_history.CLIENT_ID);
      ("refresh_token", refresh_token) ].

(** The content [save_tokens] gives the token file. *)
Definition token_file (E : environment) (access_token refresh_token : json) : file :=
  JsonText (JObj [ ("access_token", access_token);
                   ("refresh_token", refresh_token);
                   ("saved_at", JStr (now_isoformat E)) ]).

(** [served E token payloads page we w we' w']: from the world [w], the
    calls of [get_ride_history] for the pages [page], [page + 1], ... return
    the payloads in turn, and leave the world [w'] and the working
    endpoint [we']. *)
Fixpoint served (E : environment) (token : json) (payloads : list json) (page : nat)
    (we : option (string * string)) (w : world)
    (we_end : option (string * string)) (w_end : world) : Prop :=
  match payloads with
  | [] => we_end = we /\ w_end = w
  | data :: rest =>
      exists we1 w1,
        robotaxi_history.get_ride_history E token page we w = (Returns (data, we1), w1)
        /\ served E token rest (S page) we1 w1 we_end w_end
  end.

(** The cells of the CSV row of a record: for each column in turn, the
    value the record has for it, or the empty string. *)
Definition cells (items : list (string * json)) : list json :=
  map (fun field => dict_get items field (JStr "")) robotaxi_history.fieldnames.

Definition is_empty_cell (v : json) : bool :=
  match v with
  | JStr s => String.eqb s ""
  | _ => false
  end.

Definition count_empty (row : list json) : nat :=
  length (List.filter is_empty_cell row).

(** [refused urlopen auth urls contacted]: asked in turn after the
    requests [contacted], each of [urls] raises an [HTTPError] whose
    status is not 401. *)
Fixpoint refused (urlopen : list server.Request -> server.Request -> server.upstream)
    (auth_header : string) (urls : list string) (contacted : list server.Request) : Prop :=
  match urls with
  | [] => True
  | u :: rest =>
      (exists code,
          urlopen contacted (server.upstream_request auth_header u)
            = server.Throws (server.HTTPError code)
          /\ code <> 401%Z)
      /\ refused urlopen auth_header rest
           (contacted ++ [server.upstream_request auth_header u])
  end.

(** [all_fail E token page candidates log]: asked in turn after the requests
    [log], none of the candidates gives what the probing accepts: each one
    cannot be reached, or answers with a status other than 200 (401
    included), or answers 200 with a body that is not JSON. *)
Fixpoint all_fail (E : environment) (token : json) (page : nat)
    (candidates : list (string * string)) (log : list request) : Prop :=
  match candidates with
  | [] => True
  | c :: rest =>
      match remote E log (probe_request token page c) with
      | Answered r => status_code r <> 200%Z \/ body_json r = None
      | ConnectionFailed => True
      end
      /\ all_fail E token page rest (log ++ [probe_request token page c])
  end.

(** A GET that carries the given token. *)
Definition is_get_with (token : json) (rq : request) : Prop :=
  match rq with
  | GET _ bearer _ _ => bearer = token
  | POST _ _ => False
  end.

(** The names of the two output files of [fetch_and_export]. *)
Definition csv_filename (E : environment) : string :=
  "robotaxi_history_" ++ now_strftime E ++ ".csv".

Definition json_filename (E : environment) : string :=
  "robotaxi_history_" ++ now_strftime E ++ ".json".

(** The content [save_pkce] gives the verifier file. *)
Definition pkce_file (code_verifier : string) : file :=
  JsonText (JObj [ ("code_verifier", JStr code_verifier) ]).

End Reference.

(** ** Concrete runs *)

Module Scenarios.

Definition sample_ride : json :=
  JObj [ ("rideId", JStr "ride-1"); ("state", JStr "COMPLETED"); ("totalDue", JNum 12) ].

Definition rides_of_size (n : nat) : list json := repeat sample_ride n.

(** A payload in the format of the ride API. *)
Definition page_of_size (n : nat) : json :=
  JObj [ ("code", JNum 200); ("data", JObj [ ("rides", JArr (rides_of_size n)) ]) ].

Definition first_candidate : string * string :=
  ("https://ownership.tesla.com", "/mobile-app/ride/history").

Definition second_candidate : string * string :=
  ("https://akamai-apigateway-charging-ownership.tesla.com", "/mobile-app/ride/history").

(** A fake ride API: the candidate [host] answers page [k] with a payload
    of the [k]-th size and refuses pages past the list with 401; the other
    hosts cannot be reached; the token endpoint answers every POST with
    [token_reply]. *)
Definition fake_remote (host : string * string) (sizes : list nat) (token_reply : reply)
    : list request -> request -> reply :=
  fun _ rq =>
    match rq with
    | GET url _ pageNo _ =>
        if String.eqb url (fst host ++ snd host) then
          match nth_error sizes (pageNo - 1) with
          | Some n => Answered {| status_code := 200; body_json := Some (page_of_size n) |}
          | None => Answered {| status_code := 401; body_json := None |}
          end
        else ConnectionFailed
    | POST _ _ => token_reply
    end.

Definition fake_env (host : string * string) (sizes : list nat) (token_reply : reply)
    : environment :=
  {| remote := fake_remote host sizes token_reply;
     callback_query := fun _ => [ ("code", ["auth-code"; "ignored"]); ("state", ["xyz"]) ];
     token_bytes := fun n => repeat 0%Z n;
     now_isoformat := "2026-01-01T00:00:00";
     now_strftime := "20260101_000000" |}.

Definition rides_api (sizes : list nat) : environment :=
  fake_env first_candidate sizes ConnectionFailed.

Definition empty_world : world := {| files := ∅; sent := [] |}.

Definition bearer : json := JStr "access-1".

(** The requests of a run that finds the first candidate at once. *)
Definition requests_for_pages (n : nat) : list request :=
  match n with
  | O => []
  | S k =>
      Reference.probe_request bearer 1 first_candidate
        :: map (Reference.pinned_request bearer first_candidate) (seq 2 k)
  end.

Definition world_after_pages (n : nat) : world :=
  {| files := ∅; sent := requests_for_pages n |}.

(** Logging in and refreshing. *)
Definition token_answer (status : Z) (tokens : list (string * json)) : reply :=
  Answered {| status_code := status; body_json := Some (JObj tokens) |}.

Definition login_env (token_reply : reply) : environment :=
  fake_env first_candidate [5%nat] token_reply.

Definition verifier_file : file :=
  JsonText (JObj [ ("code_verifier", JStr "verifier-1") ]).

Definition old_tokens : file :=
  JsonText (JObj [ ("access_token", JStr "old-access");
                   ("refresh_token", JStr "old-refresh");
                   ("saved_at", JStr "2025-12-31T00:00:00") ]).

Definition pending_world : world :=
  {| files := {[ robotaxi_history.PKCE_FILE := verifier_file ]}; sent := [] |}.

Definition pending_world_with_tokens : world :=
  {| files := <[ robotaxi_history.TOKENS_FILE := old_tokens ]>
                {[ robotaxi_history.PKCE_FILE := verifier_file ]};
     sent := [] |}.

Definition stored_world : world :=
  {| files := {[ robotaxi_history.TOKENS_FILE := old_tokens ]}; sent := [] |}.

(** A record with three of the known fields and one unknown field. *)
Definition three_field_record : list (string * json) :=
  [ ("rideId", JStr "ride-1");
    ("unknownField", JStr "dropped");
    ("state", JStr "COMPLETED");
    ("totalDue", JNum 12) ].

Definition callback : string := "https://auth.tesla.com/void/callback?code=auth-code&state=xyz".

(** Upstream hosts for the proxy: the first answers [first], the second
    [second]. *)
Definition upstream_hosts (first second : server.upstream)
    : list server.Request -> server.Request -> server.upstream :=
  fun contacted _ => match contacted with [] => first | _ => second end.

Definition query_of (path : string) : string := "pageNo=1".

Definition browser_headers : list (string * string) :=
  [ ("Accept", "application/json"); ("Authorization", "Bearer access-1") ].

End Scenarios.

(** * Properties *)

Import robotaxi_history.
Local Open Scope list_scope.

(** ** The PKCE challenge *)

(** The derived constants are those printed in the standard, and the digest
    of the empty message and of [abc] are the published ones. *)
Example sha256_constants :
  length Sha256.K = 64%nat
  /\ nth 0 Sha256.K 0%Z = 0x428a2f98%Z
  /\ nth 63 Sha256.K 0%Z = 0xc67178f2%Z
  /\ nth 0 Sha256.H0 0%Z = 0x6a09e667%Z
  /\ nth 7 Sha256.H0 0%Z = 0x5be0cd19%Z.
Proof. vm_compute. repeat split. Qed.

Example sha256_abc :
  firstn 4 (Sha256.digest (encode "abc")) = [0xba; 0x78; 0x16; 0xbf]%Z
  /\ firstn 4 (Sha256.digest (encode "")) = [0xe3; 0xb0; 0xc4; 0x42]%Z.
Proof. vm_compute. split; reflexivity. Qed.

Section Base64Facts.
Import Base64.

Lemma list_ind3 {A} (P : list A -> Prop) :
  P [] -> (forall a, P [a]) -> (forall a b, P [a; b]) ->
  (forall a b c rest, P rest -> P (a :: b :: c :: rest)) ->
  forall l, P l.
Proof.
  intros Hnil Hone Htwo Hstep.
  fix IH 1. intros [|a [|b [|c rest]]];
    [exact Hnil | apply Hone | apply Htwo | apply Hstep, IH].
Qed.

Lemma urlsafe_nth (k : nat) :
  urlsafe_char (nth k alphabet "A"%char) = nth k url_alphabet "A"%char.
Proof.
  do 64 (destruct k as [|k]; [reflexivity|]). destruct k; reflexivity.
Qed.

Lemma urlsafe_digit (i : Z) : urlsafe_char (digit i) = url_digit i.
Proof. apply urlsafe_nth. Qed.

Lemma url_nth_not_pad (k : nat) : nth k url_alphabet "A"%char <> "="%char.
Proof.
  do 64 (destruct k as [|k]; [discriminate|]). destruct k; discriminate.
Qed.

Lemma url_digit_not_pad (i : Z) : url_digit i <> "="%char.
Proof. apply url_nth_not_pad. Qed.

Lemma rstrip_cons_ne (c x : ascii) (t : list ascii) :
  x <> c -> rstrip c (x :: t) = x :: rstrip c t.
Proof.
  intros Hne. simpl. destruct (rstrip c t); [|reflexivity].
  destruct (Ascii.eqb_spec x c); [contradiction|reflexivity].
Qed.

(** Stripping the padding of the padded URL-safe encoding gives the
    unpadded encoding of RFC 4648. *)
Lemma rstrip_urlsafe_b64encode (bs : list Z) :
  rstrip "="%char (urlsafe_b64encode bs) = base64url_nopad bs.
Proof.
  unfold urlsafe_b64encode.
  induction bs as [|a|a b|a b c rest IH] using list_ind3.
  - reflexivity.
  - cbn [b64encode map base64url_nopad]. rewrite !urlsafe_digit.
    rewrite !rstrip_cons_ne by apply url_digit_not_pad. reflexivity.
  - cbn [b64encode map base64url_nopad]. rewrite !urlsafe_digit.
    rewrite !rstrip_cons_ne by apply url_digit_not_pad. reflexivity.
  - cbn [b64encode map base64url_nopad]. rewrite !urlsafe_digit.
    rewrite !rstrip_cons_ne by apply url_digit_not_pad. now rewrite IH.
Qed.
End Base64Facts.

(** C8.  The challenge that [generate_pkce_pair] returns with a verifier is
    the unpadded base64url encoding of the SHA-256 digest of that verifier,
    for every random source; the challenge expression depends on the
    verifier alone, and for the verifier [abc] it is the known value. *)
Theorem pkce_challenge_is_reference :
  (forall E : environment,
     snd (generate_pkce_pair E) =
     string_of_list_ascii
       (Base64.base64url_nopad (Sha256.digest (encode (fst (generate_pkce_pair E))))))
  /\ (forall code_verifier : string,
        code_challenge_of code_verifier =
        string_of_list_ascii
          (Base64.base64url_nopad (Sha256.digest (encode code_verifier))))
  /\ code_challenge_of "abc" = "ungWv48Bz-pBQUDeXa4iI7ADYaOWF3qctBD_YfIAFa0".
Proof.
  split; [|split].
  - intros E. unfold generate_pkce_pair. cbn [fst snd].
    unfold code_challenge_of. now rewrite rstrip_urlsafe_b64encode.
  - intros v. unfold code_challenge_of. now rewrite rstrip_urlsafe_b64encode.
  - vm_compute. reflexivity.
Qed.

(** ** The response-format cascade *)

(** A [null] under ['rides'] is taken although ['data'] holds a list, and a
    dict ['data'] without ['rides'] gives the empty list although the
    payload has a top-level ['rides'] list: in both cases the cascade over
    arrays of the specification finds the list. *)
Lemma extract_rides_is_not_the_cascade_over_arrays :
  Reference.claimed_extraction
    (JObj [ ("rides", JNull); ("data", JArr [Scenarios.sample_ride]) ])
    = JArr [Scenarios.sample_ride]
  /\ extract_rides (JObj [ ("rides", JNull); ("data", JArr [Scenarios.sample_ride]) ])
     = JNull
  /\ Reference.claimed_extraction
       (JObj [ ("data", JObj [("count", JNum 1)]); ("rides", JArr [Scenarios.sample_ride]) ])
     = JArr [Scenarios.sample_ride]
  /\ extract_rides
       (JObj [ ("data", JObj [("count", JNum 1)]); ("rides", JArr [Scenarios.sample_ride]) ])
     = JArr [].
Proof. repeat split. Qed.

(** C5.  The ride list that [fetch_all_rides] takes from a payload is
    decided by the presence of keys, in this order.  A payload that is a
    dict whose ['data'] is a dict gives what that dict has under ['rides']
    (the empty list when it has none), whatever else the payload holds.
    Otherwise a top-level ['rides'] key gives its value, whatever it is and
    whatever ['data'] is; without it a top-level ['data'] key gives its
    value; a dict with neither gives the empty list.  A payload that is a
    list is the ride list, and any other payload gives the empty list.  On
    every payload in which these keys hold arrays the result is the one of
    the cascade over arrays of the specification. *)
Theorem extract_rides_by_key_presence (payload : json) :
  (forall items inner,
     payload = JObj items ->
     lookup_item items "data" = Some (JObj inner) ->
     extract_rides payload = dict_get inner "rides" (JArr []))
  /\ (forall items rides,
        payload = JObj items ->
        (forall inner, lookup_item items "data" <> Some (JObj inner)) ->
        lookup_item items "rides" = Some rides ->
        extract_rides payload = rides)
  /\ (forall items value,
        payload = JObj items ->
        lookup_item items "rides" = None ->
        lookup_item items "data" = Some value ->
        isinstance_dict value = false ->
        extract_rides payload = value)
  /\ (forall items,
        payload = JObj items ->
        lookup_item items "rides" = None ->
        lookup_item items "data" = None ->
        extract_rides payload = JArr [])
  /\ (forall l, payload = JArr l -> extract_rides payload = JArr l)
  /\ (isinstance_dict payload = false ->
      isinstance_list payload = false ->
      extract_rides payload = JArr [])
  /\ (Reference.array_shaped payload = true ->
      extract_rides payload = Reference.claimed_extraction payload).
Proof.
  repeat split.
  - intros items inner -> Hdata. cbn [extract_rides]. now rewrite Hdata.
  - intros items rides -> Hdata Hrides. cbn [extract_rides]. unfold dict_get.
    rewrite Hrides.
    destruct (lookup_item items "data") as [[| | | | |inner]|]; try reflexivity.
    now destruct (Hdata inner).
  - intros items value -> Hrides Hdata Hvalue. cbn [extract_rides]. unfold dict_get.
    rewrite Hdata, Hrides. destruct value; try reflexivity. discriminate.
  - intros items -> Hrides Hdata. cbn [extract_rides]. unfold dict_get.
    now rewrite Hdata, Hrides.
  - intros l ->. reflexivity.
  - intros Hdict Hlist. destruct payload; try reflexivity; discriminate.
  - intros Hshaped. destruct payload as [| b | n | s | l | items]; try reflexivity.
    unfold Reference.claimed_extraction.
    cbn [Reference.first_match Reference.nested_data_rides Reference.top_level_rides
         Reference.top_level_data Reference.whole_payload extract_rides isinstance_list
         Reference.array_shaped] in Hshaped |- *.
    unfold dict_get.
    destruct (lookup_item items "data") as [[| | | | l |inner]|].
    1-5, 7: destruct (lookup_item items "rides") as [[]|];
              try reflexivity; discriminate.
    destruct (lookup_item inner "rides") as [[]|]; try discriminate.
    reflexivity.
Qed.

(** The four shapes, evaluated. *)
Lemma extract_rides_by_key_presence_witness :
  extract_rides (Scenarios.page_of_size 2) = JArr (Scenarios.rides_of_size 2)
  /\ extract_rides (JObj [ ("rides", JArr (Scenarios.rides_of_size 2));
                           ("data", JArr (Scenarios.rides_of_size 3)) ])
     = JArr (Scenarios.rides_of_size 2)
  /\ extract_rides (JObj [ ("code", JNum 200); ("data", JArr (Scenarios.rides_of_size 3)) ])
     = JArr (Scenarios.rides_of_size 3)
  /\ extract_rides (JArr (Scenarios.rides_of_size 1)) = JArr (Scenarios.rides_of_size 1)
  /\ extract_rides (Scenarios.page_of_size 2)
     = Reference.claimed_extraction (Scenarios.page_of_size 2).
Proof.
  split; [|split; [|split; [|split]]].
  - destruct (extract_rides_by_key_presence (Scenarios.page_of_size 2)) as (H & _).
    apply (H _ [("rides", JArr (Scenarios.rides_of_size 2))] eq_refl eq_refl).
  - destruct (extract_rides_by_key_presence
                (JObj [ ("rides", JArr (Scenarios.rides_of_size 2));
                        ("data", JArr (Scenarios.rides_of_size 3)) ])) as (_ & H & _).
    apply (H _ _ eq_refl); [discriminate | reflexivity].
  - destruct (extract_rides_by_key_presence
                (JObj [ ("code", JNum 200); ("data", JArr (Scenarios.rides_of_size 3)) ]))
      as (_ & _ & H & _).
    apply (H _ _ eq_refl); reflexivity.
  - destruct (extract_rides_by_key_presence (JArr (Scenarios.rides_of_size 1)))
      as (_ & _ & _ & _ & H & _).
    apply (H _ eq_refl).
  - destruct (extract_rides_by_key_presence (Scenarios.page_of_size 2))
      as (_ & _ & _ & _ & _ & _ & H).
    apply H. reflexivity.
Defined.

(** ** One call of [get_ride_history], one turn of the loop *)

Section Fetching.
Import Reference.
Variable E : environment.
Variable token : json.

Lemma after_request_0 (w : world) :
  {| files := files w; sent := sent w ++ [] |} = w.
Proof. destruct w; simpl. now rewrite app_nil_r. Qed.

(** With a working endpoint, exactly one GET is sent, to that endpoint;
    the result is decided by the answer alone. *)
Lemma get_ride_history_pinned (page : nat) (c : string * string) (w : world) :
  get_ride_history E token page (Some c) w =
  (match remote E (sent w) (pinned_request token c page) with
   | Answered r =>
       if Z.eqb (status_code r) 200 then
         match body_json r with
         | Some data => Returns (data, Some c)
         | None => Raises RequestsJSONDecodeError
         end
       else Returns (JNull, None)
   | ConnectionFailed => Raises RequestException
   end,
   after_request w (pinned_request token c page)).
Proof.
  destruct c as [base_url endpoint].
  unfold get_ride_history, bind, requests_get, send, pinned_request, after_request.
  cbn [fst snd].
  destruct (remote E (sent w) _) as [r|]; [|reflexivity].
  destruct (Z.eqb_spec (status_code r) 401) as [H401|H401].
  - rewrite H401. reflexivity.
  - destruct (Z.eqb (status_code r) 200); cbn [negb]; [|reflexivity].
    unfold response_json. destruct (body_json r); reflexivity.
Qed.

(** One turn of the [while] loop, given what [get_ride_history] did. *)
Lemma fetch_loop_turn (fuel : nat) (all_rides : list json) (page : nat)
    (we we1 : option (string * string)) (data : json) (w w1 : world) :
  get_ride_history E token page we w = (Returns (data, we1), w1) ->
  fetch_loop E (S fuel) token all_rides page we w =
  if is_None data then (Returns all_rides, w1)
  else if negb (truthy (extract_rides data)) then (Returns all_rides, w1)
  else
    match py_len (extract_rides data), py_iter (extract_rides data) with
    | Some n, Some items =>
        if Nat.ltb n PAGE_SIZE then (Returns (all_rides ++ items), w1)
        else fetch_loop E fuel token (all_rides ++ items) (S page) we1 w1
    | _, _ => (Raises TypeError, w1)
    end.
Proof.
  intros Hget. cbn [fetch_loop]. unfold bind at 1. rewrite Hget.
  destruct (is_None data); [reflexivity|].
  destruct (negb (truthy (extract_rides data))); [reflexivity|].
  unfold bind, len, iter.
  destruct (py_len (extract_rides data)) as [n|] eqn:Hlen; [|reflexivity].
  cbn [ret]. destruct (py_iter (extract_rides data)) as [items|] eqn:Hiter.
  - cbn [ret]. destruct (Nat.ltb n PAGE_SIZE); reflexivity.
  - reflexivity.
Qed.

Lemma fetch_loop_stops (fuel : nat) (all_rides : list json) (page : nat)
    (we : option (string * string)) (out : outcome (json * option (string * string)))
    (w w1 : world) :
  get_ride_history E token page we w = (out, w1) ->
  (forall r, out <> Returns r) ->
  exists out', fetch_loop E (S fuel) token all_rides page we w = (out', w1)
               /\ forall l, out' <> Returns l.
Proof.
  intros Hget Hout. cbn [fetch_loop]. unfold bind at 1. rewrite Hget.
  destruct out as [r| e | c |].
  - now destruct (Hout r).
  - exists (Raises e). split; [reflexivity|discriminate].
  - exists (Exits c). split; [reflexivity|discriminate].
  - exists Unfinished. split; [reflexivity|discriminate].
Qed.

(** A page whose ride list has at least [PAGE_SIZE] elements is added to
    the result and the loop goes on with the next page. *)
Lemma fetch_loop_full_page (fuel : nat) (all_rides rides : list json) (page : nat)
    (we we1 : option (string * string)) (data : json) (w w1 : world) :
  get_ride_history E token page we w = (Returns (data, we1), w1) ->
  extract_rides data = JArr rides ->
  (PAGE_SIZE <= length rides)%nat ->
  fetch_loop E (S fuel) token all_rides page we w =
  fetch_loop E fuel token (all_rides ++ rides) (S page) we1 w1.
Proof.
  intros Hget Hrides Hfull.
  rewrite (fetch_loop_turn _ _ _ _ _ _ _ _ Hget), Hrides.
  assert (is_None data = false) as ->.
  { destruct data; try reflexivity. cbn in Hrides. injection Hrides as <-.
    unfold PAGE_SIZE in Hfull. cbn in Hfull. lia. }
  assert (truthy (JArr rides) = true) as ->.
  { destruct rides; [unfold PAGE_SIZE in Hfull; cbn in Hfull; lia | reflexivity]. }
  cbn [negb py_len py_iter].
  destruct (Nat.ltb_spec (length rides) PAGE_SIZE); [lia | reflexivity].
Qed.

(** A page with fewer elements, or none, ends the loop. *)
Lemma fetch_loop_short_page (fuel : nat) (all_rides rides : list json) (page : nat)
    (we we1 : option (string * string)) (data : json) (w w1 : world) :
  get_ride_history E token page we w = (Returns (data, we1), w1) ->
  extract_rides data = JArr rides ->
  (length rides < PAGE_SIZE)%nat ->
  fetch_loop E (S fuel) token all_rides page we w = (Returns (all_rides ++ rides), w1).
Proof.
  intros Hget Hrides Hshort.
  rewrite (fetch_loop_turn _ _ _ _ _ _ _ _ Hget), Hrides.
  destruct rides as [|x rides].
  - rewrite app_nil_r. cbn [truthy negb]. now destruct (is_None data).
  - assert (is_None data = false) as ->.
    { destruct data; try reflexivity. discriminate. }
    cbn [truthy negb py_len py_iter].
    destruct (Nat.ltb_spec (length (x :: rides)) PAGE_SIZE); [reflexivity | lia].
Qed.

(** A run of full pages. *)
Lemma fetch_loop_full_pages (full : list (list json)) :
  forall (payloads : list json) (all_rides : list json) (page : nat)
         (we we_mid : option (string * string)) (w w_mid : world) (fuel : nat),
    Forall (fun rides => (PAGE_SIZE <= length rides)%nat) full ->
    map extract_rides payloads = map JArr full ->
    served E token payloads page we w we_mid w_mid ->
    fetch_loop E (length full + fuel) token all_rides page we w =
    fetch_loop E fuel token (all_rides ++ concat full) (page + length full) we_mid w_mid.
Proof.
  induction full as [|rides full IH]; intros payloads all_rides page we we_mid w w_mid fuel
    Hfull Hmap Hserved.
  - destruct payloads; [|discriminate]. destruct Hserved as [-> ->].
    cbn. now rewrite app_nil_r, Nat.add_0_r.
  - destruct payloads as [|data payloads]; [discriminate|].
    cbn [map] in Hmap. injection Hmap as Hdata Hmap.
    destruct Hserved as (we1 & w1 & Hget & Hserved).
    inversion Hfull as [|? ? Hlen Hfull']; subst.
    cbn [length Nat.add concat].
    rewrite (fetch_loop_full_page _ _ _ _ _ _ _ _ _ Hget Hdata Hlen).
    rewrite (IH payloads _ _ _ _ _ _ _ Hfull' Hmap Hserved).
    now rewrite app_assoc, Nat.add_succ_r.
Qed.

Lemma served_length (payloads : list json) :
  forall page we w c w_mid,
    served E token payloads page we w (Some c) w_mid -> we = None -> payloads <> [].
Proof. intros page we w c w_mid H -> ->. now destruct H. Qed.

End Fetching.

(** ** Pagination *)

(** C1.  When the calls for the first pages return payloads whose ride lists
    have at least [PAGE_SIZE] elements each, and the call for the next page
    returns a payload whose ride list is shorter (possibly empty),
    [fetch_all_rides] returns the ride lists of all these pages, joined in
    page order, and ends in the world left by the call for that last page:
    nothing is requested after it. *)
Theorem fetch_all_rides_pagination (E : environment) (token : json)
    (full : list (list json)) (last : list json)
    (payloads : list json) (final : json)
    (we_mid we_end : option (string * string)) (w w_mid w_end : world) (fuel : nat) :
  Forall (fun rides => (PAGE_SIZE <= length rides)%nat) full ->
  (length last < PAGE_SIZE)%nat ->
  map extract_rides payloads = map JArr full ->
  extract_rides final = JArr last ->
  Reference.served E token payloads 1 None w we_mid w_mid ->
  get_ride_history E token (S (length full)) we_mid w_mid = (Returns (final, we_end), w_end) ->
  (length full < fuel)%nat ->
  fetch_all_rides E fuel token w = (Returns (concat full ++ last), w_end).
Proof.
  intros Hfull Hlast Hmap Hfinal Hserved Hget Hfuel.
  unfold fetch_all_rides.
  replace fuel with (length full + S (fuel - S (length full)))%nat by lia.
  rewrite (fetch_loop_full_pages E token full payloads [] 1 None we_mid w w_mid _
             Hfull Hmap Hserved).
  cbn [app Nat.add].
  eapply fetch_loop_short_page; eassumption.
Qed.

(** C3.  After any number of full pages, a 401 answer of the working
    endpoint ends [fetch_all_rides] at once: it returns the rides of the
    pages before, which are not lost and not empty, and the refused
    request is the last one sent. *)
Theorem unauthorized_page_keeps_earlier_rides (E : environment) (token : json)
    (full : list (list json)) (payloads : list json)
    (c : string * string) (w w_mid : world) (r : response) (fuel : nat) :
  Forall (fun rides => (PAGE_SIZE <= length rides)%nat) full ->
  map extract_rides payloads = map JArr full ->
  Reference.served E token payloads 1 None w (Some c) w_mid ->
  remote E (sent w_mid) (Reference.pinned_request token c (S (length full))) = Answered r ->
  status_code r = 401%Z ->
  (length full < fuel)%nat ->
  fetch_all_rides E fuel token w =
    (Returns (concat full),
     Reference.after_request w_mid (Reference.pinned_request token c (S (length full))))
  /\ concat full <> [].
Proof.
  intros Hfull Hmap Hserved Hremote H401 Hfuel. split.
  - unfold fetch_all_rides.
    replace fuel with (length full + S (fuel - S (length full)))%nat by lia.
    rewrite (fetch_loop_full_pages E token full payloads [] 1 None (Some c) w w_mid _
               Hfull Hmap Hserved).
    cbn [app Nat.add].
    assert (Hget := get_ride_history_pinned E token (S (length full)) c w_mid).
    rewrite Hremote, H401 in Hget. change (401 =? 200)%Z with false in Hget.
    now rewrite (fetch_loop_turn _ _ _ _ _ _ _ _ _ _ Hget).
  - assert (payloads <> []) as Hne by (eapply served_length; eauto).
    destruct full as [|rides full]; [destruct payloads; [congruence|discriminate]|].
    inversion Hfull as [|? ? Hlen _]; subst. cbn [concat].
    destruct rides; [unfold PAGE_SIZE in Hlen; cbn in Hlen; lia | discriminate].
Qed.

Section PaginationRuns.
Import Scenarios Reference.

(** The three runs of the specification, by evaluation. *)
Example pages_100_100_37 :
  fetch_all_rides (rides_api [100; 100; 37]%nat) 5 bearer empty_world =
  (Returns (rides_of_size 237), world_after_pages 3).
Proof. vm_compute. reflexivity. Qed.

Example pages_100_100_0 :
  fetch_all_rides (rides_api [100; 100; 0]%nat) 5 bearer empty_world =
  (Returns (rides_of_size 200), world_after_pages 3).
Proof. vm_compute. reflexivity. Qed.

Example pages_5 :
  fetch_all_rides (rides_api [5]%nat) 5 bearer empty_world =
  (Returns (rides_of_size 5), world_after_pages 1).
Proof. vm_compute. reflexivity. Qed.

Lemma fetch_all_rides_pagination_witness :
  fetch_all_rides (rides_api [100; 100; 37]%nat) 3 bearer empty_world =
    (Returns (concat [rides_of_size 100; rides_of_size 100] ++ rides_of_size 37),
     world_after_pages 3)
  /\ length (concat [rides_of_size 100; rides_of_size 100] ++ rides_of_size 37) = 237%nat
  /\ length (sent (world_after_pages 3)) = 3%nat.
Proof.
  split; [|split; reflexivity].
  apply (fetch_all_rides_pagination (rides_api [100; 100; 37]%nat) bearer
           [rides_of_size 100; rides_of_size 100] (rides_of_size 37)
           [page_of_size 100; page_of_size 100] (page_of_size 37)
           (Some first_candidate) (Some first_candidate)
           empty_world (world_after_pages 2) (world_after_pages 3) 3).
  - repeat constructor; vm_compute; lia.
  - vm_compute; lia.
  - reflexivity.
  - reflexivity.
  - exists (Some first_candidate), (world_after_pages 1). split; [vm_compute; reflexivity|].
    exists (Some first_candidate), (world_after_pages 2). split; [vm_compute; reflexivity|].
    split; reflexivity.
  - vm_compute; reflexivity.
  - vm_compute; lia.
Defined.

Lemma unauthorized_page_keeps_earlier_rides_witness :
  fetch_all_rides (rides_api [100; 100]%nat) 3 bearer empty_world =
    (Returns (concat [rides_of_size 100; rides_of_size 100]),
     after_request (world_after_pages 2) (pinned_request bearer first_candidate 3))
  /\ concat [rides_of_size 100; rides_of_size 100] <> [].
Proof.
  apply (unauthorized_page_keeps_earlier_rides (rides_api [100; 100]%nat) bearer
           [rides_of_size 100; rides_of_size 100]
           [page_of_size 100; page_of_size 100]
           first_candidate empty_world (world_after_pages 2)
           {| status_code := 401; body_json := None |} 3).
  - repeat constructor; vm_compute; lia.
  - reflexivity.
  - exists (Some first_candidate), (world_after_pages 1). split; [vm_compute; reflexivity|].
    exists (Some first_candidate), (world_after_pages 2). split; [vm_compute; reflexivity|].
    split; reflexivity.
  - reflexivity.
  - reflexivity.
  - vm_compute; lia.
Defined.
End PaginationRuns.

(** ** Endpoint pinning *)

Section Pinning.
Import Reference.
Variable E : environment.
Variable token : json.

(** One step of the probing loop. *)
Lemma probe_cons (page : nat) (c : string * string) (rest : list (string * string))
    (w : world) :
  probe E token page (c :: rest) w =
  let w1 := after_request w (probe_request token page c) in
  match remote E (sent w) (probe_request token page c) with
  | Answered r =>
      if Z.eqb (status_code r) 200 then
        match body_json r with
        | Some data => (Returns (data, Some c), w1)
        | None => probe E token page rest w1
        end
      else probe E token page rest w1
  | ConnectionFailed => probe E token page rest w1
  end.
Proof.
  destruct c as [base_url endpoint].
  cbn [probe]. unfold bind at 1, try_except, bind at 1, requests_get, send,
    probe_request, after_request. cbn [fst snd].
  destruct (remote E (sent w) _) as [r|]; [|reflexivity].
  destruct (Z.eqb (status_code r) 200); [|reflexivity].
  unfold bind, response_json. destruct (body_json r); reflexivity.
Qed.

(** Probing asks the candidates in order, each at most once, and stops at
    the first that answers 200 with a JSON body; it never raises. *)
Lemma probe_log (page : nat) (candidates : list (string * string)) :
  forall w : world,
  exists tried rest,
    candidates = tried ++ rest
    /\ snd (probe E token page candidates w) =
         {| files := files w; sent := sent w ++ map (probe_request token page) tried |}
    /\ ((rest = [] /\ fst (probe E token page candidates w) = Returns (JNull, None))
        \/ exists failed c r data,
             tried = failed ++ [c]
             /\ remote E (sent w ++ map (probe_request token page) failed)
                  (probe_request token page c) = Answered r
             /\ status_code r = 200%Z
             /\ body_json r = Some data
             /\ fst (probe E token page candidates w) = Returns (data, Some c)).
Proof.
  induction candidates as [|c candidates IH]; intros w.
  - exists [], []. cbn. rewrite app_nil_r. destruct w; auto.
  - assert (Hnext :
      probe E token page (c :: candidates) w =
      probe E token page candidates (after_request w (probe_request token page c)) ->
      exists tried rest,
        c :: candidates = tried ++ rest
        /\ snd (probe E token page (c :: candidates) w) =
             {| files := files w; sent := sent w ++ map (probe_request token page) tried |}
        /\ ((rest = [] /\ fst (probe E token page (c :: candidates) w) = Returns (JNull, None))
            \/ exists failed c0 r data,
                 tried = failed ++ [c0]
                 /\ remote E (sent w ++ map (probe_request token page) failed)
                      (probe_request token page c0) = Answered r
                 /\ status_code r = 200%Z
                 /\ body_json r = Some data
                 /\ fst (probe E token page (c :: candidates) w) = Returns (data, Some c0))).
    { intros ->.
      destruct (IH (after_request w (probe_request token page c)))
        as (tried & rest & -> & Hsent & Hout).
      exists (c :: tried), rest. split; [reflexivity|]. split.
      - rewrite Hsent. cbn. now rewrite <- app_assoc.
      - destruct Hout as [Hout | (failed & c0 & r & data & -> & Hr & H200 & Hbody & Hres)].
        + now left.
        + right. exists (c :: failed), c0, r, data.
          cbn in Hr. rewrite <- app_assoc in Hr. auto. }
    rewrite probe_cons in *. cbv zeta in *.
    destruct (remote E (sent w) (probe_request token page c)) as [r|] eqn:Hr; [|auto].
    destruct (Z.eqb_spec (status_code r) 200) as [H200|H200]; [|auto].
    destruct (body_json r) as [data|] eqn:Hbody; [|auto].
    exists [c], candidates. split; [reflexivity|]. split; [reflexivity|].
    right. exists [], c, r, data. cbn. rewrite app_nil_r. auto.
Qed.

(** Once an endpoint is pinned, the loop sends one GET per page, to that
    endpoint, for consecutive pages, and nothing else. *)
Lemma fetch_loop_pinned_log (fuel : nat) :
  forall (all_rides : list json) (page : nat) (c : string * string) (w : world),
  exists n,
    snd (fetch_loop E fuel token all_rides page (Some c) w) =
    {| files := files w;
       sent := sent w ++ map (pinned_request token c) (seq page n) |}.
Proof.
  induction fuel as [|fuel IH]; intros all_rides page c w.
  - exists 0%nat. cbn. now rewrite after_request_0.
  - assert (Hone : forall out,
              fetch_loop E (S fuel) token all_rides page (Some c) w =
              (out, after_request w (pinned_request token c page)) ->
              exists n,
                snd (fetch_loop E (S fuel) token all_rides page (Some c) w) =
                {| files := files w;
                   sent := sent w ++ map (pinned_request token c) (seq page n) |}).
    { intros out ->. exists 1%nat. reflexivity. }
    pose proof (get_ride_history_pinned E token page c w) as Hget.
    destruct (remote E (sent w) (pinned_request token c page)) as [r|].
    + destruct (Z.eqb (status_code r) 200).
      * destruct (body_json r) as [data|].
        -- rewrite (fetch_loop_turn _ _ _ _ _ _ _ _ _ _ Hget) in *.
           destruct (is_None data); [eauto|].
           destruct (negb (truthy (extract_rides data))); [eauto|].
           destruct (py_len (extract_rides data)) as [n|]; [|eauto].
           destruct (py_iter (extract_rides data)) as [items|]; [|eauto].
           destruct (Nat.ltb n PAGE_SIZE); [eauto|].
           destruct (IH (all_rides ++ items) (S page) c
                       (after_request w (pinned_request token c page))) as [k Hk].
           exists (S k). rewrite Hk. cbn. now rewrite <- app_assoc.
        -- destruct (fetch_loop_stops E token fuel all_rides _ _ _ _ _ Hget)
             as (out' & Hout' & _); [discriminate | eauto].
      * rewrite (fetch_loop_turn _ _ _ _ _ _ _ _ _ _ Hget) in *. cbn [is_None]. eauto.
    + destruct (fetch_loop_stops E token fuel all_rides _ _ _ _ _ Hget)
        as (out' & Hout' & _); [discriminate | eauto].
Qed.

(** A pinned endpoint that does not answer 200 ends the loop with the
    rides gathered so far; no other request follows the refused one. *)
Lemma fetch_loop_pinned_failure (fuel : nat) (all_rides : list json) (page : nat)
    (c : string * string) (w : world) (r : response) :
  remote E (sent w) (pinned_request token c page) = Answered r ->
  status_code r <> 200%Z ->
  get_ride_history E token page (Some c) w =
    (Returns (JNull, None), after_request w (pinned_request token c page))
  /\ fetch_loop E (S fuel) token all_rides page (Some c) w =
    (Returns all_rides, after_request w (pinned_request token c page)).
Proof.
  intros Hr Hne.
  pose proof (get_ride_history_pinned E token page c w) as Hget.
  rewrite Hr in Hget. destruct (Z.eqb_spec (status_code r) 200); [contradiction|].
  split; [exact Hget|].
  now rewrite (fetch_loop_turn _ _ _ _ _ _ _ _ _ _ Hget).
Qed.

(** The hypotheses on [get_ride_history] used for pagination hold as soon
    as the remote side answers: the first candidate that answers page 1 with
    200 and a JSON body is returned by the probing ... *)
Lemma get_ride_history_first_answers (c : string * string)
    (rest : list (string * string)) (w : world) (data : json) :
  API_ENDPOINTS = c :: rest ->
  remote E (sent w) (probe_request token 1 c) =
    Answered {| status_code := 200; body_json := Some data |} ->
  get_ride_history E token 1 None w =
  (Returns (data, Some c), after_request w (probe_request token 1 c)).
Proof.
  intros Hcands Hr. cbn [get_ride_history]. rewrite Hcands, probe_cons.
  cbv zeta. now rewrite Hr.
Qed.

(** ... and a pinned endpoint that answers the following pages with 200
    and JSON bodies serves these bodies, one request per page. *)
Lemma served_pinned (c : string * string) (payloads : list json) :
  forall (page : nat) (w : world),
    (forall i data,
       payloads !! i = Some data ->
       remote E (sent w ++ map (pinned_request token c) (seq page i))
         (pinned_request token c (page + i)) =
       Answered {| status_code := 200; body_json := Some data |}) ->
    served E token payloads page (Some c) w (Some c)
      {| files := files w;
         sent := sent w ++ map (pinned_request token c) (seq page (length payloads)) |}.
Proof.
  induction payloads as [|data payloads IH]; intros page w Hanswers.
  - cbn. now rewrite after_request_0.
  - cbn [served].
    exists (Some c), (after_request w (pinned_request token c page)). split.
    + rewrite get_ride_history_pinned.
      specialize (Hanswers 0%nat data eq_refl). cbn in Hanswers.
      rewrite app_nil_r, Nat.add_0_r in Hanswers. now rewrite Hanswers.
    + specialize (IH (S page) (after_request w (pinned_request token c page))).
      cbn [after_request files sent length seq map] in IH |- *.
      rewrite <- app_assoc in IH. cbn [app] in IH. apply IH.
      intros i d Hi. specialize (Hanswers (S i) d Hi).
      cbn [seq map] in Hanswers. rewrite <- app_assoc. cbn [app].
      now rewrite Nat.add_succ_r in Hanswers.
Qed.

End Pinning.

(** C4.  In every run of [fetch_all_rides] the requests are: probes of the
    candidates for page 1, in order, up to the first that answers 200; then,
    if the loop goes on, one GET per page for the pages 2, 3, ... , all to
    that candidate.  From a pinned endpoint on, whatever the answers are,
    the loop sends exactly one GET per page to it and nothing to any other
    candidate; an answer other than 200 is reported by [get_ride_history]
    as no data and no endpoint, and ends the loop right after that single
    request. *)
Theorem endpoint_pinning (E : environment) (token : json) :
  (forall (fuel : nat) (w : world),
     exists tried rest pinned,
       API_ENDPOINTS = tried ++ rest
       /\ sent (snd (fetch_all_rides E fuel token w)) =
            sent w ++ map (Reference.probe_request token 1) tried ++ pinned
       /\ (pinned = []
           \/ exists failed c r n,
                tried = failed ++ [c]
                /\ remote E (sent w ++ map (Reference.probe_request token 1) failed)
                     (Reference.probe_request token 1 c) = Answered r
                /\ status_code r = 200%Z
                /\ pinned = map (Reference.pinned_request token c) (seq 2 n)))
  /\ (forall (fuel : nat) (all_rides : list json) (page : nat) (c : string * string)
             (w : world),
        exists n,
          snd (fetch_loop E fuel token all_rides page (Some c) w) =
          {| files := files w;
             sent := sent w ++ map (Reference.pinned_request token c) (seq page n) |})
  /\ (forall (fuel : nat) (all_rides : list json) (page : nat) (c : string * string)
             (w : world) (r : response),
        remote E (sent w) (Reference.pinned_request token c page) = Answered r ->
        status_code r <> 200%Z ->
        get_ride_history E token page (Some c) w =
          (Returns (JNull, None),
           Reference.after_request w (Reference.pinned_request token c page))
        /\ fetch_loop E (S fuel) token all_rides page (Some c) w =
          (Returns all_rides,
           Reference.after_request w (Reference.pinned_request token c page))).
Proof.
  split; [|split].
  - intros [|fuel] w.
    + exists [], API_ENDPOINTS, []. cbn. rewrite app_nil_r. auto.
    + unfold fetch_all_rides.
      destruct (probe_log E token 1 API_ENDPOINTS w)
        as (tried & rest & Hsplit & Hsent & Hout).
      destruct (probe E token 1 API_ENDPOINTS w) as [out w1] eqn:Hprobe.
      cbn [fst snd] in Hsent, Hout. subst w1.
      assert (Hstop : forall res,
                fetch_loop E (S fuel) token [] 1 None w =
                (res, {| files := files w;
                         sent := sent w ++ map (Reference.probe_request token 1) tried |}) ->
                exists tried0 rest0 pinned,
                  API_ENDPOINTS = tried0 ++ rest0
                  /\ sent (snd (fetch_loop E (S fuel) token [] 1 None w)) =
                       sent w ++ map (Reference.probe_request token 1) tried0 ++ pinned
                  /\ (pinned = []
                      \/ exists failed c r n,
                           tried0 = failed ++ [c]
                           /\ remote E (sent w ++ map (Reference.probe_request token 1) failed)
                                (Reference.probe_request token 1 c) = Answered r
                           /\ status_code r = 200%Z
                           /\ pinned = map (Reference.pinned_request token c) (seq 2 n))).
      { intros res ->. exists tried, rest, []. cbn. rewrite app_nil_r. auto. }
      destruct Hout as [[_ ->] | (failed & c & r & data & -> & Hr & H200 & _ & ->)].
      * rewrite (fetch_loop_turn E token fuel [] 1 None None JNull w _ Hprobe) in *.
        cbn [is_None]. eauto.
      * rewrite (fetch_loop_turn E token fuel [] 1 None (Some c) data w _ Hprobe) in *.
        destruct (is_None data); [eauto|].
        destruct (negb (truthy (extract_rides data))); [eauto|].
        destruct (py_len (extract_rides data)) as [n|]; [|eauto].
        destruct (py_iter (extract_rides data)) as [items|]; [|eauto].
        destruct (Nat.ltb n PAGE_SIZE); [eauto|].
        destruct (fetch_loop_pinned_log E token fuel ([] ++ items) 2 c
                    {| files := files w;
                       sent := sent w ++
                               map (Reference.probe_request token 1) (failed ++ [c]) |})
          as [k Hk].
        exists (failed ++ [c]), rest, (map (Reference.pinned_request token c) (seq 2 k)).
        split; [exact Hsplit|]. split.
        -- rewrite Hk. cbn [sent]. now rewrite <- app_assoc.
        -- right. exists failed, c, r, k. auto.
  - intros. apply fetch_loop_pinned_log.
  - intros fuel all_rides page c w r Hr Hne.
    now apply (fetch_loop_pinned_failure E token fuel all_rides page c w r).
Qed.

(** ** The code exchange *)

Section Exchange.
Import Reference.
Variable E : environment.

Lemma load_pkce_pending (w : world) (items : list (string * json)) :
  files w !! PKCE_FILE = Some (JsonText (JObj items)) ->
  load_pkce w = (Returns (dict_get items "code_verifier" JNull), w).
Proof.
  intros Hfile. unfold load_pkce, try_except, bind, json_load. now rewrite Hfile.
Qed.

(** [clear_pkce] always returns, and the verifier file is gone after it. *)
Lemma clear_pkce_spec (w : world) :
  clear_pkce w = (Returns tt, {| files := delete PKCE_FILE (files w); sent := sent w |}).
Proof.
  unfold clear_pkce, try_except, os_remove.
  destruct (files w !! PKCE_FILE) eqn:Hfile; [reflexivity|].
  unfold ret. rewrite delete_id by exact Hfile. now destruct w.
Qed.

(** [complete_auth] from the POST on, for an answer of the token endpoint. *)
Lemma complete_auth_answered (callback_url : string) (w : world)
    (items : list (string * json)) (auth_code : string) (more : list string)
    (r : response) :
  files w !! PKCE_FILE = Some (JsonText (JObj items)) ->
  truthy (dict_get items "code_verifier" JNull) = true ->
  query_lookup (callback_query E callback_url) "code" = Some (auth_code :: more) ->
  remote E (sent w)
    (exchange_request (dict_get items "code_verifier" JNull) auth_code) = Answered r ->
  complete_auth E callback_url w =
  (if Z.eqb (status_code r) 200 then
     match body_json r with
     | Some (JObj tokens) =>
         Returns (dict_get tokens "access_token" JNull,
                  dict_get tokens "refresh_token" JNull)
     | Some _ => Raises AttributeError
     | None => Raises RequestsJSONDecodeError
     end
   else Exits 1,
   {| files := delete PKCE_FILE (files w);
      sent := sent w ++
              [exchange_request (dict_get items "code_verifier" JNull) auth_code] |}).
Proof.
  intros Hfile Htruthy Hcode Hr.
  unfold complete_auth. unfold bind at 1. rewrite (load_pkce_pending w items Hfile).
  rewrite Htruthy. cbn [negb]. rewrite Hcode.
  unfold bind at 1. cbn [ret]. unfold bind at 1, requests_post, send.
  unfold exchange_request in Hr. rewrite Hr.
  unfold bind at 1. rewrite clear_pkce_spec. cbn [files sent].
  destruct (Z.eqb (status_code r) 200); cbn [negb]; [|reflexivity].
  unfold bind, response_json.
  destruct (body_json r) as [[]|]; reflexivity.
Qed.

(** When the POST itself fails (no answer at all), the call ends with the
    exception before [clear_pkce], and the verifier file is kept. *)
Lemma complete_auth_connection_failed (callback_url : string) (w : world)
    (items : list (string * json)) (auth_code : string) (more : list string) :
  files w !! PKCE_FILE = Some (JsonText (JObj items)) ->
  truthy (dict_get items "code_verifier" JNull) = true ->
  query_lookup (callback_query E callback_url) "code" = Some (auth_code :: more) ->
  remote E (sent w)
    (exchange_request (dict_get items "code_verifier" JNull) auth_code)
    = ConnectionFailed ->
  complete_auth E callback_url w =
  (Raises RequestException,
   after_request w (exchange_request (dict_get items "code_verifier" JNull) auth_code)).
Proof.
  intros Hfile Htruthy Hcode Hr.
  unfold complete_auth. unfold bind at 1. rewrite (load_pkce_pending w items Hfile).
  rewrite Htruthy. cbn [negb]. rewrite Hcode.
  unfold bind at 1. cbn [ret]. unfold bind at 1, requests_post, send.
  unfold exchange_request in Hr. now rewrite Hr.
Qed.
End Exchange.

(** C6.  With a pending verifier and a callback URL that carries a code,
    once the token endpoint has answered the POST of [complete_auth], with
    status 200 or with any other status, the verifier file is absent; any
    status other than 200 ends the run through [sys.exit(1)]. *)
Theorem complete_auth_clears_verifier (E : environment) (callback_url : string)
    (w : world) (items : list (string * json)) (auth_code : string)
    (more : list string) (r : response) :
  files w !! PKCE_FILE = Some (JsonText (JObj items)) ->
  truthy (dict_get items "code_verifier" JNull) = true ->
  query_lookup (callback_query E callback_url) "code" = Some (auth_code :: more) ->
  remote E (sent w)
    (Reference.exchange_request (dict_get items "code_verifier" JNull) auth_code)
    = Answered r ->
  files (snd (complete_auth E callback_url w)) !! PKCE_FILE = None
  /\ sent (snd (complete_auth E callback_url w)) =
       sent w ++ [Reference.exchange_request (dict_get items "code_verifier" JNull) auth_code]
  /\ (status_code r <> 200%Z -> fst (complete_auth E callback_url w) = Exits 1).
Proof.
  intros Hfile Htruthy Hcode Hr.
  rewrite (complete_auth_answered E callback_url w items auth_code more r Hfile Htruthy Hcode Hr).
  cbn [fst snd files sent]. split; [apply lookup_delete_eq|]. split; [reflexivity|].
  intros Hne. now destruct (Z.eqb_spec (status_code r) 200).
Qed.

(** ** What the fetch and the export leave untouched *)

Section Frame.
Import Reference.
Variable E : environment.

Lemma get_ride_history_files (token : json) (page : nat)
    (we : option (string * string)) (w : world) :
  files (snd (get_ride_history E token page we w)) = files w.
Proof.
  destruct we as [c|].
  - now rewrite get_ride_history_pinned.
  - cbn [get_ride_history].
    destruct (probe_log E token page API_ENDPOINTS w) as (tried & rest & _ & -> & _).
    reflexivity.
Qed.

Lemma fetch_loop_files (token : json) (fuel : nat) :
  forall (all_rides : list json) (page : nat) (we : option (string * string)) (w : world),
    files (snd (fetch_loop E fuel token all_rides page we w)) = files w.
Proof.
  induction fuel as [|fuel IH]; intros all_rides page we w; [reflexivity|].
  pose proof (get_ride_history_files token page we w) as Hfiles.
  destruct (get_ride_history E token page we w) as [out w1] eqn:Hget.
  cbn [snd] in Hfiles.
  destruct out as [[data we1]| e | code |].
  - rewrite (fetch_loop_turn _ _ _ _ _ _ _ _ _ _ Hget).
    destruct (is_None data); [exact Hfiles|].
    destruct (negb (truthy (extract_rides data))); [exact Hfiles|].
    destruct (py_len (extract_rides data)) as [n|]; [|exact Hfiles].
    destruct (py_iter (extract_rides data)) as [items|]; [|exact Hfiles].
    destruct (Nat.ltb n PAGE_SIZE); [exact Hfiles|].
    now rewrite IH.
  - destruct (fetch_loop_stops E token fuel all_rides _ _ _ _ _ Hget) as (o & -> & _);
      [discriminate | exact Hfiles].
  - destruct (fetch_loop_stops E token fuel all_rides _ _ _ _ _ Hget) as (o & -> & _);
      [discriminate | exact Hfiles].
  - destruct (fetch_loop_stops E token fuel all_rides _ _ _ _ _ Hget) as (o & -> & _);
      [discriminate | exact Hfiles].
Qed.

Lemma csv_writerow_other (filename path : string) (row : list json) (w : world) :
  path <> filename ->
  files (snd (csv_writerow filename row w)) !! path = files w !! path.
Proof. intros Hne. cbn. now rewrite lookup_insert_ne. Qed.

Lemma write_rides_other (filename path : string) (rides : list json) :
  path <> filename ->
  forall w, files (snd (write_rides filename rides w)) !! path = files w !! path.
Proof.
  intros Hne. induction rides as [|ride rides IH]; intros w; [reflexivity|].
  cbn [write_rides]. unfold bind at 1, row_of.
  destruct ride; try reflexivity.
  cbn [ret]. unfold bind at 1, DictWriter_writerow, csv_writerow.
  rewrite IH. cbn [files]. now rewrite lookup_insert_ne by congruence.
Qed.

Lemma export_to_csv_other (filename path : string) (rides : list json) (w : world) :
  path <> filename ->
  files (snd (export_to_csv rides filename w)) !! path = files w !! path.
Proof.
  intros Hne. unfold export_to_csv.
  destruct (negb (truthy (JArr rides))); [reflexivity|].
  unfold bind, write_file, DictWriter_writeheader, DictWriter_writerow.
  cbn [csv_writerow files sent].
  rewrite write_rides_other by exact Hne. cbn [files].
  now rewrite !lookup_insert_ne by congruence.
Qed.

(** The token file and the verifier file are not among the files that
    [fetch_and_export] writes. *)
Lemma fetch_and_export_tokens_file (fuel : nat) (access_token refresh_token : json)
    (w : world) :
  files (snd (fetch_and_export E fuel access_token refresh_token w)) !! TOKENS_FILE
  = files w !! TOKENS_FILE.
Proof.
  unfold fetch_and_export, bind.
  pose proof (fetch_loop_files access_token fuel [] 1 None w) as Hfiles.
  fold (fetch_all_rides E fuel access_token w) in Hfiles.
  destruct (fetch_all_rides E fuel access_token w) as [[rides| e | code |] w1];
    cbn [snd] in Hfiles; try (cbn [snd]; now rewrite Hfiles).
  destruct (truthy (JArr rides)); [|cbn [snd ret]; now rewrite Hfiles].
  pose proof (export_to_csv_other
                ("robotaxi_history_" ++ now_strftime E ++ ".csv")%string TOKENS_FILE
                rides w1) as Hcsv.
  destruct (export_to_csv rides _ w1) as [[[]| e | code |] w2];
    cbn [snd] in Hcsv |- *; try (rewrite Hcsv, Hfiles; [reflexivity | discriminate]).
  unfold write_file. cbn [snd files].
  rewrite lookup_insert_ne by discriminate.
  rewrite Hcsv, Hfiles; [reflexivity | discriminate].
Qed.
End Frame.

(** ** The orchestrator *)

Section Orchestrator.
Import Reference.
Variable E : environment.

Lemma load_tokens_spec (w : world) :
  load_tokens w =
  (match files w !! TOKENS_FILE with
   | Some (JsonText (JObj items)) =>
       Returns (dict_get items "access_token" JNull, dict_get items "refresh_token" JNull)
   | Some (JsonText _) => Raises AttributeError
   | _ => Returns (JNull, JNull)
   end, w).
Proof.
  unfold load_tokens, try_except, bind, json_load.
  destruct (files w !! TOKENS_FILE) as [[[]| |]|]; reflexivity.
Qed.

Lemma save_tokens_spec (access_token refresh_token : json) (w : world) :
  save_tokens E access_token refresh_token w =
  (Returns tt,
   {| files := <[TOKENS_FILE := token_file E access_token refresh_token]> (files w);
      sent := sent w |}).
Proof. reflexivity. Qed.

(** With a callback URL, [main] is [complete_auth], then [save_tokens]
    when the refresh token is true, then [fetch_and_export]. *)
Lemma main_with_callback (fuel : nat) (script url : string) (more : list string)
    (w : world) (stored : json * json) :
  url <> ""%string ->
  load_tokens w = (Returns stored, w) ->
  main E fuel (script :: url :: more) w =
  bind (complete_auth E url)
    (fun tokens =>
       bind (if truthy (snd tokens) then save_tokens E (fst tokens) (snd tokens)
             else ret tt)
         (fun _ => fetch_and_export E fuel (fst tokens) (snd tokens))) w.
Proof.
  intros Hurl Hload. unfold main. cbn [nth_error].
  unfold bind at 1. rewrite Hload. destruct stored as [a0 r0].
  assert (given (Some url) = true) as ->.
  { cbn. now apply negb_true_iff, String.eqb_neq. }
  cbn [negb]. rewrite andb_false_r. unfold bind at 1. cbn [ret].
  unfold bind. destruct (complete_auth E url w) as [[[a r]| | |] w1]; reflexivity.
Qed.

(** With stored tokens and no callback URL, [main] first refreshes. *)
Lemma main_refreshing (fuel : nat) (argv : list string) (w : world)
    (items : list (string * json)) (r : response) (tokens : list (string * json)) :
  given (nth_error argv 1) = false ->
  files w !! TOKENS_FILE = Some (JsonText (JObj items)) ->
  truthy (dict_get items "access_token" JNull) = true ->
  truthy (dict_get items "refresh_token" JNull) = true ->
  remote E (sent w) (refresh_request (dict_get items "refresh_token" JNull)) = Answered r ->
  status_code r = 200%Z ->
  body_json r = Some (JObj tokens) ->
  truthy (dict_get tokens "access_token" JNull) = true ->
  main E fuel argv w =
  bind (fetch_and_export E fuel (dict_get tokens "access_token" JNull)
          (py_or (dict_get tokens "refresh_token" JNull)
                 (dict_get items "refresh_token" JNull)))
       (fun _ => ret tt)
    {| files := <[TOKENS_FILE :=
                    token_file E (dict_get tokens "access_token" JNull)
                      (py_or (dict_get tokens "refresh_token" JNull)
                             (dict_get items "refresh_token" JNull))]> (files w);
       sent := sent w ++ [refresh_request (dict_get items "refresh_token" JNull)] |}.
Proof.
  intros Hgiven Hfile Ha Hr Hremote H200 Hbody Hnew.
  unfold main. unfold bind at 1. rewrite load_tokens_spec, Hfile, Ha, Hr, Hgiven.
  cbn [andb negb]. unfold bind at 1. unfold bind at 1.
  unfold authenticate_with_refresh_token, bind at 1, requests_post, send.
  unfold refresh_request in Hremote. rewrite Hremote, H200.
  change (negb (200 =? 200)%Z) with false. cbn iota.
  unfold bind at 1, response_json. rewrite Hbody. cbn [ret method_get].
  unfold bind at 1. unfold bind at 1. cbn [ret]. rewrite Hnew.
  unfold bind at 1. rewrite save_tokens_spec. cbn [files sent].
  unfold bind.
  destruct (fetch_and_export E fuel _ _ _) as [[[]| | |] w1]; reflexivity.
Qed.
End Orchestrator.

(** [load_pkce] changes nothing, and [complete_auth] leaves the token file
    alone however it ends. *)
Lemma load_pkce_world (w : world) : snd (load_pkce w) = w.
Proof.
  unfold load_pkce, try_except, bind, json_load.
  destruct (files w !! PKCE_FILE) as [[[]| |]|]; reflexivity.
Qed.

Lemma complete_auth_tokens_file (E : environment) (callback_url : string) (w : world) :
  files (snd (complete_auth E callback_url w)) !! TOKENS_FILE = files w !! TOKENS_FILE.
Proof.
  unfold complete_auth. unfold bind at 1.
  pose proof (load_pkce_world w) as Hworld.
  destruct (load_pkce w) as [[code_verifier| | |] w0]; cbn [snd] in Hworld; subst w0;
    try reflexivity.
  destruct (negb (truthy code_verifier)); [reflexivity|].
  destruct (query_lookup (callback_query E callback_url) "code") as [values|];
    [|reflexivity].
  unfold bind at 1. destruct values as [|auth_code values]; [reflexivity|].
  cbn [ret]. unfold bind at 1, requests_post, send.
  destruct (remote E (sent w) _) as [r|]; [|reflexivity].
  unfold bind at 1. rewrite clear_pkce_spec. cbn [files sent].
  assert (Hkept : forall out : outcome (json * json),
            files (snd (out, {| files := delete PKCE_FILE (files w);
                                sent := sent w ++
                                  [POST (AUTH_BASE_URL ++ "/token")%string
                                     [ ("grant_type", JStr "authorization_code");
                                       ("client_id", JStr CLIENT_ID);
                                       ("code", JStr auth_code);
                                       ("code_verifier", code_verifier);
                                       ("redirect_uri", JStr REDIRECT_URI) ]] |}))
              !! TOKENS_FILE = files w !! TOKENS_FILE).
  { intros out. cbn [snd files]. now rewrite lookup_delete_ne by discriminate. }
  destruct (negb (Z.eqb (status_code r) 200)); [apply Hkept|].
  unfold bind, response_json.
  destruct (body_json r) as [[]|]; apply Hkept.
Qed.

(** C7.  When a callback URL is given, the stored token file is absent,
    not JSON or a JSON object, and [complete_auth] succeeds, [main] saves
    the tokens of the exchange exactly when the refresh token is true in
    Python's sense, and then fetches and exports.  With such a refresh
    token the token file holds the tokens of the exchange afterwards,
    however the fetch ends; with a refresh token that is missing or empty
    nothing is saved and the token file is as it was before the run. *)
Theorem main_callback_persists_tokens (E : environment) (fuel : nat)
    (script url : string) (more : list string) (w w1 : world)
    (access_token refresh_token : json) :
  url <> ""%string ->
  (forall v, files w !! TOKENS_FILE = Some (JsonText v) -> isinstance_dict v = true) ->
  complete_auth E url w = (Returns (access_token, refresh_token), w1) ->
  (truthy refresh_token = true ->
   main E fuel (script :: url :: more) w =
     fetch_and_export E fuel access_token refresh_token
       {| files := <[TOKENS_FILE := Reference.token_file E access_token refresh_token]>
                     (files w1);
          sent := sent w1 |}
   /\ files (snd (main E fuel (script :: url :: more) w)) !! TOKENS_FILE =
        Some (Reference.token_file E access_token refresh_token))
  /\ (truthy refresh_token = false ->
      main E fuel (script :: url :: more) w =
        fetch_and_export E fuel access_token refresh_token w1
      /\ files (snd (main E fuel (script :: url :: more) w)) !! TOKENS_FILE =
           files w !! TOKENS_FILE).
Proof.
  intros Hurl Hstored Hauth.
  assert (exists stored, load_tokens w = (Returns stored, w)) as [stored Hload].
  { rewrite load_tokens_spec.
    destruct (files w !! TOKENS_FILE) as [[v| |]|] eqn:Hfile; eauto.
    specialize (Hstored v eq_refl). destruct v; try discriminate. eauto. }
  pose proof (main_with_callback E fuel script url more w stored Hurl Hload) as Hmain.
  unfold bind at 1 in Hmain. rewrite Hauth in Hmain. cbn [fst snd] in Hmain.
  split; intros Htruthy; rewrite Htruthy in Hmain; unfold bind at 1 in Hmain.
  - rewrite save_tokens_spec in Hmain. split; [exact Hmain|].
    rewrite Hmain, fetch_and_export_tokens_file. cbn [files]. apply lookup_insert_eq.
  - cbn [ret] in Hmain. split; [exact Hmain|].
    rewrite Hmain, fetch_and_export_tokens_file.
    pose proof (complete_auth_tokens_file E url w) as Hkept.
    now rewrite Hauth in Hkept.
Qed.

(** C10.  With stored tokens and no callback URL, when the token endpoint
    answers the refresh with status 200 and a new access token but no
    [refresh_token] field, the token file afterwards pairs the new access
    token with the refresh token that was stored before. *)
Theorem refresh_keeps_stored_refresh_token (E : environment) (fuel : nat)
    (argv : list string) (w : world) (items : list (string * json))
    (r : response) (tokens : list (string * json)) :
  given (nth_error argv 1) = false ->
  files w !! TOKENS_FILE = Some (JsonText (JObj items)) ->
  truthy (dict_get items "access_token" JNull) = true ->
  truthy (dict_get items "refresh_token" JNull) = true ->
  remote E (sent w) (Reference.refresh_request (dict_get items "refresh_token" JNull))
    = Answered r ->
  status_code r = 200%Z ->
  body_json r = Some (JObj tokens) ->
  truthy (dict_get tokens "access_token" JNull) = true ->
  lookup_item tokens "refresh_token" = None ->
  files (snd (main E fuel argv w)) !! TOKENS_FILE =
    Some (Reference.token_file E (dict_get tokens "access_token" JNull)
            (dict_get items "refresh_token" JNull)).
Proof.
  intros Hgiven Hfile Ha Hr Hremote H200 Hbody Hnew Hnone.
  rewrite (main_refreshing E fuel argv w items r tokens Hgiven Hfile Ha Hr Hremote H200 Hbody Hnew).
  assert (py_or (dict_get tokens "refresh_token" JNull) (dict_get items "refresh_token" JNull)
          = dict_get items "refresh_token" JNull) as ->.
  { unfold dict_get at 1. now rewrite Hnone. }
  unfold bind.
  pose proof (fetch_and_export_tokens_file E fuel (dict_get tokens "access_token" JNull)
                (dict_get items "refresh_token" JNull)
                {| files := <[TOKENS_FILE :=
                                Reference.token_file E (dict_get tokens "access_token" JNull)
                                  (dict_get items "refresh_token" JNull)]> (files w);
                   sent := sent w ++
                           [Reference.refresh_request (dict_get items "refresh_token" JNull)] |})
    as Hframe.
  destruct (fetch_and_export E fuel _ _ _) as [[[]| | |] w1];
    cbn [snd fst ret files] in Hframe |- *; rewrite Hframe; apply lookup_insert_eq.
Qed.

(** ** The CSV export *)

Section CsvExport.
Import Reference.

Lemma fieldnames_length : length fieldnames = 50%nat.
Proof. reflexivity. Qed.

Lemma fieldnames_NoDup : NoDup fieldnames.
Proof. apply (bool_decide_unpack (NoDup fieldnames)). vm_compute. exact I. Qed.

(** Looking a column up in the dict built over the columns gives the
    value computed for that column. *)
Lemma dict_get_comprehension (g : string -> json) (columns : list string)
    (key : string) (default : json) :
  In key columns ->
  dict_get (map (fun field => (field, g field)) columns) key default = g key.
Proof.
  unfold dict_get. induction columns as [|c columns IH]; intros Hin; [destruct Hin|].
  cbn [map lookup_item]. destruct (String.eqb_spec c key) as [->|Hne]; [reflexivity|].
  destruct Hin as [Heq|Hin]; [contradiction|]. now apply IH.
Qed.

Lemma writerow_cells (g : string -> json) (columns : list string) :
  map (fun key => dict_get (map (fun field => (field, g field)) columns) key (JStr ""))
    columns = map g columns.
Proof. apply map_ext_in. intros key Hin. now apply dict_get_comprehension. Qed.

Lemma write_rides_rows (filename : string) (records : list (list (string * json))) :
  forall (rows : list (list json)) (w : world),
    files w !! filename = Some (CsvRows rows) ->
    write_rides filename (map JObj records) w =
    (Returns tt,
     {| files := <[filename := CsvRows (rows ++ map cells records)]> (files w);
        sent := sent w |}).
Proof.
  induction records as [|items records IH]; intros rows w Hfile.
  - cbn. rewrite app_nil_r, insert_id by exact Hfile. now destruct w.
  - cbn [map write_rides row_of]. unfold bind at 1. cbn [ret].
    unfold bind at 1, DictWriter_writerow, csv_writerow. rewrite Hfile.
    rewrite writerow_cells.
    rewrite (IH (rows ++ [cells items])) by (cbn; apply lookup_insert_eq).
    cbn [files sent]. rewrite insert_insert_eq, <- app_assoc. reflexivity.
Qed.

Lemma export_to_csv_rows (filename : string) (records : list (list (string * json)))
    (w : world) :
  records <> [] ->
  export_to_csv (map JObj records) filename w =
  (Returns tt,
   {| files := <[filename := CsvRows (map JStr fieldnames :: map cells records)]> (files w);
      sent := sent w |}).
Proof.
  intros Hne. unfold export_to_csv.
  assert (truthy (JArr (map JObj records)) = true) as ->
    by (destruct records; [contradiction | reflexivity]).
  cbn [negb]. unfold bind at 1, write_file.
  unfold bind at 1, DictWriter_writeheader, DictWriter_writerow, csv_writerow.
  cbn [files sent]. rewrite lookup_insert_eq, writerow_cells.
  rewrite (write_rides_rows filename records [map JStr fieldnames])
    by (cbn; apply lookup_insert_eq).
  cbn [files sent app]. now rewrite !insert_insert_eq.
Qed.

(** A key outside the column list has no influence on the row. *)
Lemma cells_ignore_unknown (extra : string) (v : json) (items : list (string * json)) :
  ~ In extra fieldnames -> cells ((extra, v) :: items) = cells items.
Proof.
  intros Hnot. unfold cells. apply map_ext_in. intros field Hin.
  unfold dict_get. cbn [lookup_item].
  destruct (String.eqb_spec extra field) as [->|]; [contradiction | reflexivity].
Qed.

Lemma cells_lookup (items : list (string * json)) (i : nat) (field : string) :
  fieldnames !! i = Some field ->
  cells items !! i =
  Some (match lookup_item items field with Some v => v | None => JStr "" end).
Proof. intros Hi. unfold cells. rewrite list_lookup_fmap, Hi. reflexivity. Qed.
End CsvExport.

(** C2.  For a non-empty list of records, [export_to_csv]
    writes the header row of the 50 fixed column names, in their fixed
    order and without repetition, and then one row of 50 cells per record:
    the cell of a column is the record's value for it, or the empty string
    when the record lacks it, and a field outside the column list changes
    nothing. *)
Theorem export_to_csv_fixed_columns (filename : string)
    (records : list (list (string * json))) (w : world) :
  records <> [] ->
  export_to_csv (map JObj records) filename w =
    (Returns tt,
     {| files := <[filename := CsvRows (map JStr fieldnames :: map Reference.cells records)]>
                   (files w);
        sent := sent w |})
  /\ length fieldnames = 50%nat
  /\ NoDup fieldnames
  /\ (forall items, length (Reference.cells items) = 50%nat)
  /\ (forall items i field,
        fieldnames !! i = Some field ->
        Reference.cells items !! i =
        Some (match lookup_item items field with Some v => v | None => JStr "" end))
  /\ (forall extra v items,
        ~ In extra fieldnames ->
        Reference.cells ((extra, v) :: items) = Reference.cells items).
Proof.
  intros Hne. split; [now apply export_to_csv_rows|].
  split; [exact fieldnames_length|]. split; [exact fieldnames_NoDup|].
  split; [intros items; unfold Reference.cells; now rewrite length_map|].
  split; [apply cells_lookup | apply cells_ignore_unknown].
Qed.

(** ** The development proxy *)

Section Proxy.
Import server Reference.
Variable urlopen : list Request -> Request -> upstream.
Variable urlparse_query : string -> string.

(** Candidates that raise an [HTTPError] other than 401 are passed over. *)
Lemma try_endpoints_refused (auth_header : string) (urls rest : list string) :
  forall contacted,
    refused urlopen auth_header urls contacted ->
    try_endpoints urlopen auth_header (urls ++ rest) contacted =
    try_endpoints urlopen auth_header rest
      (contacted ++ map (upstream_request auth_header) urls).
Proof.
  induction urls as [|u urls IH]; intros contacted Href.
  - cbn. now rewrite app_nil_r.
  - destruct Href as [(code & Hopen & Hcode) Href].
    cbn [app try_endpoints]. rewrite Hopen.
    destruct (Z.eqb_spec code 401); [contradiction|].
    rewrite (IH _ Href). cbn [map]. now rewrite <- app_assoc.
Qed.
End Proxy.

(** C9.  For a GET under [/api/rides], the candidates are asked
    in their fixed order.  After candidates that raised an [HTTPError] other
    than 401: a candidate that answers has its body sent back unchanged
    with status 200, and no later candidate is asked; a candidate that
    raises an [HTTPError] 401 makes the proxy reply 401 at once, and no
    later candidate is asked.  When every candidate raises an [HTTPError]
    other than 401, the reply is 502 with the error [No working endpoint]. *)
Theorem proxy_rides_short_circuit
    (urlopen : list server.Request -> server.Request -> server.upstream)
    (urlparse_query : string -> string)
    (path : string) (request_headers : list (string * string)) :
  String.prefix "/api/rides" path = true ->
  let auth_header := server.headers_get request_headers "Authorization" "" in
  let ask := server.upstream_request auth_header in
  (forall (before : list string) (u : string) (rest : list string),
     server.endpoints (urlparse_query path) = before ++ u :: rest ->
     Reference.refused urlopen auth_header before [] ->
     (forall data,
        urlopen (map ask before) (ask u) = server.Opened data ->
        exists headers,
          server.do_GET urlopen urlparse_query path request_headers =
          Some ({| server.status := 200; server.headers := headers;
                   server.body := server.Bytes data |},
                map ask (before ++ [u])))
     /\ (urlopen (map ask before) (ask u) = server.Throws (server.HTTPError 401) ->
         exists headers body,
           server.do_GET urlopen urlparse_query path request_headers =
           Some ({| server.status := 401; server.headers := headers; server.body := body |},
                 map ask (before ++ [u]))))
  /\ (Reference.refused urlopen auth_header (server.endpoints (urlparse_query path)) [] ->
      exists headers,
        server.do_GET urlopen urlparse_query path request_headers =
        Some ({| server.status := 502; server.headers := headers;
                 server.body :=
                   server.JsonDumps (JObj [("error", JStr "No working endpoint")]) |},
              map ask (server.endpoints (urlparse_query path)))).
Proof.
  intros Hpath auth_header ask.
  unfold server.do_GET. rewrite Hpath. unfold server.proxy_rides_request.
  fold auth_header. split.
  - intros before u rest Hsplit Href. rewrite Hsplit.
    rewrite (try_endpoints_refused urlopen auth_header before (u :: rest) [] Href).
    cbn [app server.try_endpoints]. fold ask. rewrite !map_app. cbn [map].
    split.
    + intros data ->. eexists. reflexivity.
    + intros ->. cbn. eexists _, _. reflexivity.
  - intros Href.
    pose proof (try_endpoints_refused urlopen auth_header _ [] [] Href) as Hloop.
    rewrite app_nil_r in Hloop. rewrite Hloop.
    cbn. eexists. reflexivity.
Qed.

Section ProxyRuns.
Import server Scenarios Reference.

Lemma proxy_rides_short_circuit_witness :
  exists headers,
    do_GET (upstream_hosts (Throws (HTTPError 404)) (Opened "[]")) query_of
      "/api/rides?pageNo=1" browser_headers =
    Some ({| status := 200; headers := headers; body := Bytes "[]" |},
          map (upstream_request "Bearer access-1") (endpoints "pageNo=1")).
Proof.
  destruct (proxy_rides_short_circuit
              (upstream_hosts (Throws (HTTPError 404)) (Opened "[]")) query_of
              "/api/rides?pageNo=1" browser_headers eq_refl) as [Hfirst _].
  apply (Hfirst
           ["https://ownership.tesla.com/mobile-app/ride/history?pageNo=1"%string]
           "https://akamai-apigateway-charging-ownership.tesla.com/mobile-app/ride/history?pageNo=1"%string
           [] eq_refl).
  - split; [|exact I]. exists 404%Z. split; [reflexivity | lia].
  - reflexivity.
Defined.

(** Both hosts are unreachable: each candidate raises an error that is
    not a 401, yet the reply is 500, not 502, and only the first candidate
    was asked. *)
Lemma proxy_rides_unreachable_hosts_give_500 :
  (forall contacted rq,
     upstream_hosts (Throws (OtherError "timed out")) (Throws (OtherError "timed out"))
       contacted rq = Throws (OtherError "timed out"))
  /\ do_GET (upstream_hosts (Throws (OtherError "timed out"))
               (Throws (OtherError "timed out")))
       query_of "/api/rides?pageNo=1" browser_headers =
     Some ({| status := 500;
              headers := [ ("Content-Type", "application/json") ];
              body := JsonDumps (JObj [("error", JStr "timed out")]) |},
           [ upstream_request "Bearer access-1"
               "https://ownership.tesla.com/mobile-app/ride/history?pageNo=1" ])
  /\ 500%Z <> 502%Z.
Proof.
  split; [|split].
  - intros [|? ?] rq; reflexivity.
  - reflexivity.
  - discriminate.
Qed.

(** The first candidate answers: the second is not asked. *)
Example first_candidate_answers :
  do_GET (upstream_hosts (Opened "[1]") (Opened "[2]")) query_of
    "/api/rides?pageNo=1" browser_headers =
  Some ({| status := 200;
           headers := [ ("Content-Type", "application/json");
                        ("Access-Control-Allow-Origin", "*") ];
           body := Bytes "[1]" |},
        [ upstream_request "Bearer access-1"
            "https://ownership.tesla.com/mobile-app/ride/history?pageNo=1" ]).
Proof. reflexivity. Qed.

(** An exception that is not an [HTTPError] (an unreachable host, a
    timeout) is not caught in the loop: the reply is 500 and the next
    candidate is not asked. *)
Lemma proxy_rides_other_error
    (urlopen : list Request -> Request -> upstream)
    (urlparse_query : string -> string)
    (path : string) (request_headers : list (string * string)) (message : string) :
  urlopen [] (upstream_request (headers_get request_headers "Authorization" "")
                ("https://ownership.tesla.com/mobile-app/ride/history?"
                   ++ urlparse_query path)%string)
    = Throws (OtherError message) ->
  proxy_rides_request urlopen urlparse_query path request_headers =
  ({| status := 500;
      headers := [ ("Content-Type", "application/json") ];
      body := JsonDumps (JObj [("error", JStr message)]) |},
   [ upstream_request (headers_get request_headers "Authorization" "")
       ("https://ownership.tesla.com/mobile-app/ride/history?"
          ++ urlparse_query path)%string ]).
Proof.
  intros Hopen. unfold proxy_rides_request, endpoints.
  cbn [try_endpoints]. now rewrite Hopen.
Qed.
End ProxyRuns.

(** ** Runs of the command-line tool *)

Section ToolRuns.
Import Scenarios Reference.

(** The first candidate cannot be reached and the second answers page 1:
    the later pages go to the second candidate only. *)
Example second_candidate_is_pinned :
  sent (snd (fetch_all_rides (fake_env second_candidate [100; 100; 37]%nat ConnectionFailed)
               5 bearer empty_world)) =
  [ probe_request bearer 1 first_candidate;
    probe_request bearer 1 second_candidate;
    pinned_request bearer second_candidate 2;
    pinned_request bearer second_candidate 3 ].
Proof. vm_compute. reflexivity. Qed.

Lemma endpoint_pinning_witness :
  get_ride_history (fake_env second_candidate [100]%nat ConnectionFailed) bearer 2
    (Some second_candidate) empty_world =
    (Returns (JNull, None),
     after_request empty_world (pinned_request bearer second_candidate 2))
  /\ fetch_loop (fake_env second_candidate [100]%nat ConnectionFailed) 1 bearer
       (rides_of_size 100) 2 (Some second_candidate) empty_world =
     (Returns (rides_of_size 100),
      after_request empty_world (pinned_request bearer second_candidate 2)).
Proof.
  destruct (endpoint_pinning (fake_env second_candidate [100]%nat ConnectionFailed) bearer)
    as (_ & _ & Hfailure).
  apply (Hfailure 0%nat (rides_of_size 100) 2%nat second_candidate empty_world
           {| status_code := 401; body_json := None |}).
  - reflexivity.
  - cbn. lia.
Defined.

Lemma complete_auth_clears_verifier_witness :
  files (snd (complete_auth (login_env (token_answer 403 [])) callback pending_world))
    !! PKCE_FILE = None
  /\ sent (snd (complete_auth (login_env (token_answer 403 [])) callback pending_world)) =
       sent pending_world ++ [exchange_request (JStr "verifier-1") "auth-code"]
  /\ (403%Z <> 200%Z ->
      fst (complete_auth (login_env (token_answer 403 [])) callback pending_world) = Exits 1).
Proof.
  apply (complete_auth_clears_verifier (login_env (token_answer 403 [])) callback
           pending_world [("code_verifier", JStr "verifier-1")] "auth-code" ["ignored"]
           {| status_code := 403; body_json := Some (JObj []) |}).
  - vm_compute. reflexivity.
  - reflexivity.
  - reflexivity.
  - reflexivity.
Defined.
End ToolRuns.

Section ExportRuns.
Import Scenarios Reference.

Lemma export_to_csv_fixed_columns_witness :
  export_to_csv (map JObj [three_field_record]) "rides.csv" empty_world =
    (Returns tt,
     {| files := <["rides.csv" :=
                    CsvRows (map JStr fieldnames :: map cells [three_field_record])]>
                   (files empty_world);
        sent := sent empty_world |})
  /\ length (cells three_field_record) = 50%nat
  /\ count_empty (cells three_field_record) = 47%nat
  /\ List.filter (fun v => negb (is_empty_cell v)) (cells three_field_record) =
       [JStr "ride-1"; JStr "COMPLETED"; JNum 12].
Proof.
  destruct (export_to_csv_fixed_columns "rides.csv" [three_field_record] empty_world)
    as (Hfile & _ & _ & Hlen & _); [discriminate|].
  split; [exact Hfile|]. split; [apply Hlen|]. split; reflexivity.
Defined.

(** The header has 50 columns, not 45, and a record with three known
    fields leaves 47 cells empty, not 42. *)
Lemma export_has_50_columns_not_45 :
  files (snd (export_to_csv [JObj three_field_record] "rides.csv" empty_world))
    !! "rides.csv" =
    Some (CsvRows [map JStr fieldnames; cells three_field_record])
  /\ length (map JStr fieldnames) = 50%nat
  /\ length (map JStr fieldnames) <> 45%nat
  /\ count_empty (cells three_field_record) = 47%nat
  /\ count_empty (cells three_field_record) <> 42%nat.
Proof.
  split.
  - change [JObj three_field_record] with (map JObj [three_field_record]).
    rewrite export_to_csv_rows by discriminate. cbn [snd files map].
    apply lookup_insert_eq.
  - repeat split; try reflexivity; vm_compute; discriminate.
Qed.
End ExportRuns.

Section LoginRuns.
Import Scenarios Reference.

(** The exchange succeeds with an access token and no refresh token:
    [main] does not write the token file, which still holds the tokens of
    an earlier login. *)
Lemma main_callback_without_refresh_token :
  fst (complete_auth (login_env (token_answer 200 [("access_token", JStr "new-access")]))
         callback pending_world_with_tokens) = Returns (JStr "new-access", JNull)
  /\ files (snd (main (login_env (token_answer 200 [("access_token", JStr "new-access")]))
                   5 ["robotaxi_history.py"; callback] pending_world_with_tokens))
       !! TOKENS_FILE = Some old_tokens
  /\ Some old_tokens <>
     Some (token_file (login_env (token_answer 200 [("access_token", JStr "new-access")]))
             (JStr "new-access") JNull).
Proof.
  split; [vm_compute; reflexivity|]. split; [vm_compute; reflexivity|]. discriminate.
Qed.

Lemma main_callback_persists_tokens_witness :
  files (snd (main (login_env (token_answer 200 [ ("access_token", JStr "new-access");
                                                  ("refresh_token", JStr "new-refresh") ]))
                5 ["robotaxi_history.py"; callback] pending_world_with_tokens))
    !! TOKENS_FILE =
  Some (token_file
          (login_env (token_answer 200 [ ("access_token", JStr "new-access");
                                         ("refresh_token", JStr "new-refresh") ]))
          (JStr "new-access") (JStr "new-refresh")).
Proof.
  destruct (main_callback_persists_tokens
              (login_env (token_answer 200 [ ("access_token", JStr "new-access");
                                             ("refresh_token", JStr "new-refresh") ]))
              5 "robotaxi_history.py" callback [] pending_world_with_tokens
              {| files := delete PKCE_FILE (files pending_world_with_tokens);
                 sent := [exchange_request (JStr "verifier-1") "auth-code"] |}
              (JStr "new-access") (JStr "new-refresh")) as [Hsaved _].
  - discriminate.
  - intros v Hv. vm_compute in Hv. injection Hv as <-. reflexivity.
  - vm_compute. reflexivity.
  - destruct (Hsaved eq_refl) as [_ Hfile]. exact Hfile.
Defined.

Lemma refresh_keeps_stored_refresh_token_witness :
  files (snd (main (login_env (token_answer 200 [("access_token", JStr "new-access")]))
                5 ["robotaxi_history.py"] stored_world))
    !! TOKENS_FILE =
  Some (token_file (login_env (token_answer 200 [("access_token", JStr "new-access")]))
          (JStr "new-access") (JStr "old-refresh")).
Proof.
  apply (refresh_keeps_stored_refresh_token
           (login_env (token_answer 200 [("access_token", JStr "new-access")]))
           5 ["robotaxi_history.py"] stored_world
           [ ("access_token", JStr "old-access");
             ("refresh_token", JStr "old-refresh");
             ("saved_at", JStr "2025-12-31T00:00:00") ]
           {| status_code := 200;
              body_json := Some (JObj [("access_token", JStr "new-access")]) |}
           [("access_token", JStr "new-access")]).
  - reflexivity.
  - vm_compute. reflexivity.
  - reflexivity.
  - reflexivity.
  - reflexivity.
  - reflexivity.
  - reflexivity.
  - reflexivity.
  - reflexivity.
Defined.
End LoginRuns.

(** * Further properties of the code *)

(** ** The verifier file *)

Section VerifierStore.
Import Reference.

(** X1.  [load_pkce] after [save_pkce] returns the verifier that was saved,
    whatever the verifier file held before (another pending verifier,
    text that is not JSON, nothing), and leaves the world as it is. *)
Theorem load_pkce_after_save (code_verifier : string) (w : world) :
  load_pkce (snd (save_pkce code_verifier w)) =
  (Returns (JStr code_verifier), snd (save_pkce code_verifier w)).
Proof.
  unfold save_pkce, write_file. cbn [snd].
  rewrite (load_pkce_pending _ [("code_verifier", JStr code_verifier)]); [reflexivity|].
  cbn [files]. apply lookup_insert_eq.
Qed.

(** X2.  [clear_pkce] never raises; after it [load_pkce] returns [None],
    whatever the file held before (also JSON that [load_pkce] could not
    read), and a second [clear_pkce] changes nothing. *)
Theorem load_pkce_after_clear (w : world) :
  fst (clear_pkce w) = Returns tt
  /\ load_pkce (snd (clear_pkce w)) = (Returns JNull, snd (clear_pkce w))
  /\ clear_pkce (snd (clear_pkce w)) = (Returns tt, snd (clear_pkce w)).
Proof.
  rewrite clear_pkce_spec. cbn [fst snd]. split; [reflexivity|]. split.
  - unfold load_pkce, try_except, bind, json_load. cbn [files].
    now rewrite lookup_delete_eq.
  - rewrite clear_pkce_spec. cbn [files sent].
    now rewrite delete_id by apply lookup_delete_eq.
Qed.

End VerifierStore.

(** ** Shape of the verifier and of the challenge *)

Section PkceShape.
Import Base64.

Lemma round_length (st : list Z) (kw : Z * Z) :
  length (Sha256.round st kw) = length st.
Proof.
  destruct st as [|a [|b [|c [|d [|e [|f [|g [|h [|i t]]]]]]]]]; reflexivity.
Qed.

Lemma fold_round_length (kws : list (Z * Z)) :
  forall st, length (fold_left Sha256.round kws st) = length st.
Proof.
  induction kws as [|kw kws IH]; intros st; [reflexivity|].
  cbn [fold_left]. now rewrite IH, round_length.
Qed.

Lemma zip_add_length (xs : list Z) :
  forall ys, length ys = length xs -> length (Sha256.zip_add xs ys) = length xs.
Proof.
  induction xs as [|x xs IH]; intros [|y ys] Hlen; try discriminate; [reflexivity|].
  cbn [Sha256.zip_add length]. injection Hlen as Hlen. now rewrite IH.
Qed.

Lemma blocks_length (n : nat) :
  forall h bs, length (Sha256.blocks n h bs) = length h.
Proof.
  induction n as [|n IH]; intros h bs; [reflexivity|].
  cbn [Sha256.blocks]. rewrite IH. unfold Sha256.compress.
  apply zip_add_length, fold_round_length.
Qed.

Lemma flat_map_be_bytes_length (ws : list Z) :
  length (flat_map (Sha256.be_bytes 4) ws) = (4 * length ws)%nat.
Proof.
  induction ws as [|x ws IH]; [reflexivity|].
  cbn [flat_map]. rewrite length_app, IH. cbn [Sha256.be_bytes length]. lia.
Qed.

(** A SHA-256 digest has 32 bytes, for every message. *)
Lemma digest_length (msg : list Z) : length (Sha256.digest msg) = 32%nat.
Proof.
  unfold Sha256.digest. cbv zeta. rewrite flat_map_be_bytes_length, blocks_length.
  assert (length Sha256.H0 = 8%nat) as -> by (vm_compute; reflexivity).
  reflexivity.
Qed.

(** The unpadded encoding of [n] bytes has [ceil (4 n / 3)] characters. *)
Lemma base64url_nopad_length (bs : list Z) :
  length (base64url_nopad bs) = ((4 * length bs + 2) / 3)%nat.
Proof.
  induction bs as [|a|a b|a b c rest IH] using list_ind3; try reflexivity.
  cbn [base64url_nopad length]. rewrite IH.
  replace (4 * S (S (S (length rest))) + 2)%nat
    with ((4 * length rest + 2) + 4 * 3)%nat by lia.
  rewrite Nat.div_add by lia. lia.
Qed.

Lemma url_nth_in_alphabet (k : nat) : In (nth k url_alphabet "A"%char) url_alphabet.
Proof.
  destruct (Nat.lt_ge_cases k (length url_alphabet)) as [Hlt|Hge].
  - now apply nth_In.
  - rewrite nth_overflow by exact Hge. now left.
Qed.

Lemma base64url_nopad_alphabet (bs : list Z) :
  Forall (fun c => In c url_alphabet) (base64url_nopad bs).
Proof.
  induction bs as [|a|a b|a b c rest IH] using list_ind3; cbn [base64url_nopad].
  - apply Forall_nil_2.
  - repeat (apply Forall_cons_2; [apply url_nth_in_alphabet|]). apply Forall_nil_2.
  - repeat (apply Forall_cons_2; [apply url_nth_in_alphabet|]). apply Forall_nil_2.
  - repeat (apply Forall_cons_2; [apply url_nth_in_alphabet|]). exact IH.
Qed.

Lemma string_of_list_ascii_length (l : list ascii) :
  String.length (string_of_list_ascii l) = length l.
Proof. induction l as [|c l IH]; [reflexivity | cbn; now rewrite IH]. Qed.

End PkceShape.

(** X3.  When the random source delivers the 32 bytes asked for, the
    verifier and the challenge of [generate_pkce_pair] both have 43
    characters, all taken from the URL-safe base64 alphabet: neither
    contains padding or a character that needs escaping in a URL.  The
    statement about the challenge holds for every verifier. *)
Theorem generate_pkce_pair_shape (E : environment) :
  length (token_bytes E 32) = 32%nat ->
  String.length (fst (generate_pkce_pair E)) = 43%nat
  /\ String.length (snd (generate_pkce_pair E)) = 43%nat
  /\ Forall (fun c => In c Base64.url_alphabet)
       (list_ascii_of_string (fst (generate_pkce_pair E)))
  /\ Forall (fun c => In c Base64.url_alphabet)
       (list_ascii_of_string (snd (generate_pkce_pair E)))
  /\ (forall code_verifier,
        String.length (code_challenge_of code_verifier) = 43%nat).
Proof.
  intros Hbytes.
  assert (Hchallenge : forall v, String.length (code_challenge_of v) = 43%nat).
  { intros v. unfold code_challenge_of.
    rewrite rstrip_urlsafe_b64encode, string_of_list_ascii_length,
      base64url_nopad_length, digest_length. reflexivity. }
  unfold generate_pkce_pair. cbn [fst snd]. repeat split.
  - unfold token_urlsafe.
    rewrite rstrip_urlsafe_b64encode, string_of_list_ascii_length,
      base64url_nopad_length, Hbytes. reflexivity.
  - apply Hchallenge.
  - unfold token_urlsafe.
    rewrite rstrip_urlsafe_b64encode, list_ascii_of_string_of_list_ascii.
    apply base64url_nopad_alphabet.
  - unfold code_challenge_of.
    rewrite rstrip_urlsafe_b64encode, list_ascii_of_string_of_list_ascii.
    apply base64url_nopad_alphabet.
  - apply Hchallenge.
Qed.

Lemma generate_pkce_pair_shape_witness :
  String.length (fst (generate_pkce_pair (Scenarios.rides_api []))) = 43%nat
  /\ String.length (snd (generate_pkce_pair (Scenarios.rides_api []))) = 43%nat.
Proof.
  destruct (generate_pkce_pair_shape (Scenarios.rides_api []) eq_refl)
    as (Hverifier & Hchallenge & _).
  split; [exact Hverifier | exact Hchallenge].
Defined.

(** ** Logging in: the ways out of [complete_auth] *)

Lemma load_pkce_nothing_pending (w : world) :
  (forall v, files w !! PKCE_FILE = Some (JsonText v) ->
             exists items, v = JObj items
                           /\ truthy (dict_get items "code_verifier" JNull) = false) ->
  exists v, load_pkce w = (Returns v, w) /\ truthy v = false.
Proof.
  intros Hfile. unfold load_pkce, try_except, bind, json_load.
  destruct (files w !! PKCE_FILE) as [[v| |]|] eqn:Hlookup;
    try (exists JNull; split; reflexivity).
  destruct (Hfile v eq_refl) as (items & -> & Hfalsy).
  exists (dict_get items "code_verifier" JNull). split; [reflexivity | exact Hfalsy].
Qed.

(** X4.  Without a usable pending verifier (the verifier file is missing,
    is not JSON, or is a JSON object whose [code_verifier] is missing or
    empty), [complete_auth] leaves through [sys.exit(1)] before anything
    else: no request is sent and no file is touched, whatever the callback
    URL carries. *)
Theorem complete_auth_without_pending_verifier (E : environment) (callback_url : string)
    (w : world) :
  (forall v, files w !! PKCE_FILE = Some (JsonText v) ->
             exists items, v = JObj items
                           /\ truthy (dict_get items "code_verifier" JNull) = false) ->
  complete_auth E callback_url w = (Exits 1, w).
Proof.
  intros Hfile. destruct (load_pkce_nothing_pending w Hfile) as (v & Hload & Hfalsy).
  unfold complete_auth. unfold bind at 1. now rewrite Hload, Hfalsy.
Qed.

Lemma complete_auth_without_pending_verifier_witness :
  complete_auth (Scenarios.login_env (Scenarios.token_answer 200 []))
    Scenarios.callback Scenarios.stored_world = (Exits 1, Scenarios.stored_world).
Proof.
  apply complete_auth_without_pending_verifier.
  intros v Hv. vm_compute in Hv. discriminate.
Defined.

(** X5.  With a pending verifier but a callback URL whose query has no
    [code], [complete_auth] leaves through [sys.exit(1)] without sending
    anything, and the pending verifier is kept: the login can be completed
    by a later run with the right URL. *)
Theorem complete_auth_without_code (E : environment) (callback_url : string)
    (w : world) (items : list (string * json)) :
  files w !! PKCE_FILE = Some (JsonText (JObj items)) ->
  truthy (dict_get items "code_verifier" JNull) = true ->
  query_lookup (callback_query E callback_url) "code" = None ->
  complete_auth E callback_url w = (Exits 1, w).
Proof.
  intros Hfile Htruthy Hcode. unfold complete_auth. unfold bind at 1.
  rewrite (load_pkce_pending w items Hfile), Htruthy. cbn [negb].
  now rewrite Hcode.
Qed.

Lemma complete_auth_without_code_witness :
  complete_auth
    {| remote := fun _ _ => ConnectionFailed;
       callback_query := fun _ => [ ("error", ["login_cancelled"]) ];
       token_bytes := fun n => repeat 0%Z n;
       now_isoformat := "2026-01-01T00:00:00";
       now_strftime := "20260101_000000" |}
    "https://auth.tesla.com/void/callback?error=login_cancelled"
    Scenarios.pending_world = (Exits 1, Scenarios.pending_world).
Proof.
  apply (complete_auth_without_code _ _ Scenarios.pending_world
           [("code_verifier", JStr "verifier-1")]).
  - vm_compute. reflexivity.
  - reflexivity.
  - reflexivity.
Defined.

Section LoginRoundTrip.
Import Reference.

Lemma token_urlsafe_truthy (E : environment) (n : nat) :
  token_bytes E n <> [] -> truthy (JStr (token_urlsafe E n)) = true.
Proof.
  intros Hbytes. cbn [truthy]. apply negb_true_iff, String.eqb_neq.
  intros Hempty. apply (f_equal String.length) in Hempty.
  unfold token_urlsafe in Hempty.
  rewrite rstrip_urlsafe_b64encode, string_of_list_ascii_length,
    base64url_nopad_length in Hempty.
  destruct (token_bytes E n) as [|b bs]; [contradiction|].
  cbn [length String.length] in Hempty.
  assert (1 <= (4 * S (length bs) + 2) / 3)%nat
    by (apply Nat.div_le_lower_bound; lia).
  lia.
Qed.

Lemma start_auth_spec (E : environment) (w : world) :
  start_auth E w =
  (Returns tt,
   {| files := <[PKCE_FILE := pkce_file (token_urlsafe E 32)]> (files w);
      sent := sent w |}).
Proof. reflexivity. Qed.

End LoginRoundTrip.

(** X6.  [start_auth] followed by [complete_auth]: [start_auth] sends
    nothing and replaces whatever verifier was pending; the one POST of
    [complete_auth] then carries exactly the verifier [start_auth]
    generated (the one its challenge was derived from) together with the
    first [code] value of the callback URL, and once the token endpoint has
    answered, no verifier is pending any more. *)
Theorem login_round_trip (E : environment) (callback_url : string) (w : world)
    (auth_code : string) (more : list string) (r : response) :
  token_bytes E 32 <> [] ->
  query_lookup (callback_query E callback_url) "code" = Some (auth_code :: more) ->
  remote E (sent w)
    (Reference.exchange_request (JStr (fst (generate_pkce_pair E))) auth_code)
    = Answered r ->
  sent (snd (start_auth E w)) = sent w
  /\ snd (generate_pkce_pair E) = code_challenge_of (fst (generate_pkce_pair E))
  /\ sent (snd (complete_auth E callback_url (snd (start_auth E w)))) =
       sent w ++ [Reference.exchange_request (JStr (fst (generate_pkce_pair E))) auth_code]
  /\ files (snd (complete_auth E callback_url (snd (start_auth E w)))) !! PKCE_FILE = None.
Proof.
  intros Hbytes Hcode Hr. rewrite start_auth_spec. cbn [snd sent fst generate_pkce_pair].
  split; [reflexivity|]. split; [reflexivity|].
  rewrite (complete_auth_answered E callback_url _
             [("code_verifier", JStr (token_urlsafe E 32))] auth_code more r).
  - cbn [snd sent files]. split; [reflexivity | apply lookup_delete_eq].
  - cbn [files]. apply lookup_insert_eq.
  - now apply token_urlsafe_truthy.
  - exact Hcode.
  - exact Hr.
Qed.

Lemma login_round_trip_witness :
  files (snd (complete_auth (Scenarios.login_env (Scenarios.token_answer 200 []))
                Scenarios.callback
                (snd (start_auth (Scenarios.login_env (Scenarios.token_answer 200 []))
                        Scenarios.stored_world))))
    !! PKCE_FILE = None.
Proof.
  destruct (login_round_trip (Scenarios.login_env (Scenarios.token_answer 200 []))
              Scenarios.callback Scenarios.stored_world "auth-code" ["ignored"]
              {| status_code := 200; body_json := Some (JObj []) |})
    as (_ & _ & _ & Hgone).
  - discriminate.
  - reflexivity.
  - reflexivity.
  - exact Hgone.
Defined.

(** ** Refreshing *)

(** What [authenticate_with_refresh_token] does with an answer. *)
Lemma authenticate_answered (E : environment) (refresh_token : json) (w : world)
    (r : response) :
  remote E (sent w) (Reference.refresh_request refresh_token) = Answered r ->
  authenticate_with_refresh_token E refresh_token w =
  (if Z.eqb (status_code r) 200 then
     match body_json r with
     | Some (JObj tokens) =>
         Returns (dict_get tokens "access_token" JNull,
                  dict_get tokens "refresh_token" JNull)
     | Some _ => Raises AttributeError
     | None => Raises RequestsJSONDecodeError
     end
   else Returns (JNull, JNull),
   Reference.after_request w (Reference.refresh_request refresh_token)).
Proof.
  intros Hr. unfold authenticate_with_refresh_token, requests_post.
  unfold bind at 1, send. unfold Reference.refresh_request in Hr. rewrite Hr.
  destruct (Z.eqb (status_code r) 200); cbn [negb]; [|reflexivity].
  unfold bind, response_json. destruct (body_json r) as [[]|]; reflexivity.
Qed.

(** X7.  When the token endpoint answers the refresh with a status other
    than 200, [authenticate_with_refresh_token] returns [(None, None)]
    without reading the body (which need not be JSON); it has sent exactly
    one POST, the refresh request with the token it was given, and touched
    no file. *)
Theorem refresh_refused (E : environment) (refresh_token : json) (w : world)
    (r : response) :
  remote E (sent w) (Reference.refresh_request refresh_token) = Answered r ->
  status_code r <> 200%Z ->
  authenticate_with_refresh_token E refresh_token w =
  (Returns (JNull, JNull),
   Reference.after_request w (Reference.refresh_request refresh_token)).
Proof.
  intros Hr Hne. rewrite (authenticate_answered E refresh_token w r Hr).
  now destruct (Z.eqb_spec (status_code r) 200).
Qed.

Lemma refresh_refused_witness :
  authenticate_with_refresh_token
    (Scenarios.login_env (Answered {| status_code := 401; body_json := None |}))
    (JStr "old-refresh") Scenarios.stored_world =
  (Returns (JNull, JNull),
   Reference.after_request Scenarios.stored_world
     (Reference.refresh_request (JStr "old-refresh"))).
Proof.
  apply (refresh_refused _ _ _ {| status_code := 401; body_json := None |}).
  - reflexivity.
  - discriminate.
Defined.

(** ** Probing and the loop, for every remote side *)

Section ProbingAndLoop.
Import Reference.
Variable E : environment.
Variable token : json.

Lemma probe_all_fail (page : nat) (candidates : list (string * string)) :
  forall w,
    all_fail E token page candidates (sent w) ->
    probe E token page candidates w =
    (Returns (JNull, None),
     {| files := files w;
        sent := sent w ++ map (probe_request token page) candidates |}).
Proof.
  induction candidates as [|c candidates IH]; intros w Hfail.
  - cbn. now rewrite after_request_0.
  - destruct Hfail as [Hc Hrest].
    assert (Hnext : probe E token page candidates
                      (after_request w (probe_request token page c)) =
                    (Returns (JNull, None),
                     {| files := files w;
                        sent := sent w ++ map (probe_request token page) (c :: candidates) |})).
    { rewrite (IH (after_request w (probe_request token page c)) Hrest).
      cbn [after_request files sent map]. now rewrite <- app_assoc. }
    rewrite probe_cons. cbv zeta.
    destruct (remote E (sent w) (probe_request token page c)) as [r|]; [|exact Hnext].
    destruct (Z.eqb_spec (status_code r) 200) as [H200|]; [|exact Hnext].
    destruct Hc as [Hc|Hc]; [contradiction|]. now rewrite Hc.
Qed.

(** Every request of one call of [get_ride_history] is a GET with the
    token; no file changes. *)
Lemma get_ride_history_log (page : nat) (we : option (string * string)) (w : world) :
  exists new,
    snd (get_ride_history E token page we w) =
      {| files := files w; sent := sent w ++ new |}
    /\ Forall (is_get_with token) new.
Proof.
  destruct we as [c|].
  - rewrite get_ride_history_pinned. exists [pinned_request token c page].
    split; [reflexivity|]. repeat constructor.
  - cbn [get_ride_history].
    destruct (probe_log E token page API_ENDPOINTS w) as (tried & rest & _ & -> & _).
    exists (map (probe_request token page) tried). split; [reflexivity|].
    clear. induction tried as [|c tried IH]; constructor; [reflexivity | exact IH].
Qed.

Lemma fetch_loop_log (fuel : nat) :
  forall (all_rides : list json) (page : nat) (we : option (string * string)) (w : world),
  exists new,
    snd (fetch_loop E fuel token all_rides page we w) =
      {| files := files w; sent := sent w ++ new |}
    /\ Forall (is_get_with token) new.
Proof.
  induction fuel as [|fuel IH]; intros all_rides page we w.
  - exists []. cbn. rewrite after_request_0. split; [reflexivity | constructor].
  - destruct (get_ride_history_log page we w) as (new & Hw1 & Hnew).
    destruct (get_ride_history E token page we w) as [out w1] eqn:Hget.
    cbn [snd] in Hw1. subst w1.
    assert (Hstop : forall res,
              fetch_loop E (S fuel) token all_rides page we w =
              (res, {| files := files w; sent := sent w ++ new |}) ->
              exists new0,
                snd (fetch_loop E (S fuel) token all_rides page we w) =
                  {| files := files w; sent := sent w ++ new0 |}
                /\ Forall (is_get_with token) new0).
    { intros res ->. exists new. split; [reflexivity | exact Hnew]. }
    destruct out as [[data we1]| e | code |].
    + rewrite (fetch_loop_turn _ _ _ _ _ _ _ _ _ _ Hget) in *.
      destruct (is_None data); [eauto|].
      destruct (negb (truthy (extract_rides data))); [eauto|].
      destruct (py_len (extract_rides data)) as [n|]; [|eauto].
      destruct (py_iter (extract_rides data)) as [items|]; [|eauto].
      destruct (Nat.ltb n PAGE_SIZE); [eauto|].
      destruct (IH (all_rides ++ items) (S page) we1
                  {| files := files w; sent := sent w ++ new |}) as (more & -> & Hmore).
      exists (new ++ more). cbn [files sent]. rewrite <- app_assoc.
      split; [reflexivity | now apply Forall_app].
    + destruct (fetch_loop_stops E token fuel all_rides _ _ _ _ _ Hget)
        as (o & Ho & _); [discriminate | eauto].
    + destruct (fetch_loop_stops E token fuel all_rides _ _ _ _ _ Hget)
        as (o & Ho & _); [discriminate | eauto].
    + destruct (fetch_loop_stops E token fuel all_rides _ _ _ _ _ Hget)
        as (o & Ho & _); [discriminate | eauto].
Qed.

End ProbingAndLoop.

(** X8.  During probing every failure counts alike, a 401 included: when
    each candidate in turn cannot be reached, answers with a status other
    than 200, or answers 200 with a body that is not JSON, then
    [get_ride_history] has asked every candidate once, in order, and
    returns no data and no endpoint, and [fetch_all_rides] returns the
    empty list after these probes. *)
Theorem no_working_endpoint (E : environment) (token : json) (w : world) (fuel : nat) :
  Reference.all_fail E token 1 API_ENDPOINTS (sent w) ->
  get_ride_history E token 1 None w =
    (Returns (JNull, None),
     {| files := files w;
        sent := sent w ++ map (Reference.probe_request token 1) API_ENDPOINTS |})
  /\ fetch_all_rides E (S fuel) token w =
    (Returns [],
     {| files := files w;
        sent := sent w ++ map (Reference.probe_request token 1) API_ENDPOINTS |}).
Proof.
  intros Hfail.
  assert (Hget := probe_all_fail E token 1 API_ENDPOINTS w Hfail).
  split; [exact Hget|].
  unfold fetch_all_rides.
  now rewrite (fetch_loop_turn E token fuel [] 1 None None JNull w _ Hget).
Qed.

Lemma no_working_endpoint_witness :
  fetch_all_rides (Scenarios.rides_api []) 1 Scenarios.bearer Scenarios.empty_world =
  (Returns [],
   {| files := files Scenarios.empty_world;
      sent := sent Scenarios.empty_world ++
              map (Reference.probe_request Scenarios.bearer 1) API_ENDPOINTS |}).
Proof.
  destruct (no_working_endpoint (Scenarios.rides_api []) Scenarios.bearer
              Scenarios.empty_world 0) as [_ Hfetch].
  - cbn. split; [left; discriminate|]. split; exact I.
  - exact Hfetch.
Defined.

(** X9.  Whatever the remote side answers and however long the loop runs,
    [fetch_all_rides] changes no file, and every request it sends is a GET
    that carries the access token it was given: it never posts and never
    sends another token. *)
Theorem fetch_all_rides_only_gets (E : environment) (token : json) (fuel : nat)
    (w : world) :
  exists new,
    snd (fetch_all_rides E fuel token w) = {| files := files w; sent := sent w ++ new |}
    /\ Forall (Reference.is_get_with token) new.
Proof.
  unfold fetch_all_rides.
  destruct (fetch_loop_log E token fuel [] 1 None w) as (new & Hworld & Hgets).
  exists new. split; [exact Hworld | exact Hgets].
Qed.

(** X10.  The loop only ever appends: when [fetch_loop] returns, the rides
    gathered before are a prefix of the result, in the same order; in
    particular a later page never replaces or reorders an earlier one. *)
Theorem fetch_loop_keeps_earlier_rides (E : environment) (token : json) (fuel : nat)
    (all_rides : list json) (page : nat) (we : option (string * string))
    (w w' : world) (result : list json) :
  fetch_loop E fuel token all_rides page we w = (Returns result, w') ->
  exists more, result = all_rides ++ more.
Proof.
  revert all_rides page we w w' result.
  induction fuel as [|fuel IH]; intros all_rides page we w w' result Hrun;
    [discriminate|].
  destruct (get_ride_history E token page we w) as [out w1] eqn:Hget.
  destruct out as [[data we1]| e | code |].
  - rewrite (fetch_loop_turn _ _ _ _ _ _ _ _ _ _ Hget) in Hrun.
    assert (Hsame : forall w0, (Returns all_rides, w0) = (Returns result, w') ->
                               exists more, result = all_rides ++ more).
    { intros w0 [= <- _]. exists []. now rewrite app_nil_r. }
    destruct (is_None data); [eauto|].
    destruct (negb (truthy (extract_rides data))); [eauto|].
    destruct (py_len (extract_rides data)) as [n|]; [|discriminate].
    destruct (py_iter (extract_rides data)) as [items|]; [|discriminate].
    destruct (Nat.ltb n PAGE_SIZE).
    + injection Hrun as <- _. eauto.
    + destruct (IH _ _ _ _ _ _ Hrun) as [more ->].
      exists (items ++ more). now rewrite app_assoc.
  - destruct (fetch_loop_stops E token fuel all_rides _ _ _ _ _ Hget)
      as (o & Ho & Hno); [discriminate|]. rewrite Ho in Hrun.
    injection Hrun as -> _. now destruct (Hno result).
  - destruct (fetch_loop_stops E token fuel all_rides _ _ _ _ _ Hget)
      as (o & Ho & Hno); [discriminate|]. rewrite Ho in Hrun.
    injection Hrun as -> _. now destruct (Hno result).
  - destruct (fetch_loop_stops E token fuel all_rides _ _ _ _ _ Hget)
      as (o & Ho & Hno); [discriminate|]. rewrite Ho in Hrun.
    injection Hrun as -> _. now destruct (Hno result).
Qed.

Lemma fetch_loop_keeps_earlier_rides_witness :
  exists more,
    Scenarios.rides_of_size 7 = Scenarios.rides_of_size 2 ++ more.
Proof.
  apply (fetch_loop_keeps_earlier_rides (Scenarios.rides_api [5]%nat) Scenarios.bearer 1
           (Scenarios.rides_of_size 2) 1 None Scenarios.empty_world
           (Scenarios.world_after_pages 1) (Scenarios.rides_of_size 7)).
  vm_compute. reflexivity.
Defined.

(** X11.  A ride list that is true in Python's sense but has no length (a
    number other than 0, or [true]) makes the loop raise [TypeError] right
    after the request that brought it: the call does not return, so the
    rides gathered so far are not handed to the caller. *)
Theorem fetch_loop_rides_without_length (E : environment) (token : json) (fuel : nat)
    (all_rides : list json) (page : nat) (we we1 : option (string * string))
    (data : json) (w w1 : world) :
  get_ride_history E token page we w = (Returns (data, we1), w1) ->
  truthy (extract_rides data) = true ->
  py_len (extract_rides data) = None ->
  fetch_loop E (S fuel) token all_rides page we w = (Raises TypeError, w1).
Proof.
  intros Hget Htruthy Hlen.
  rewrite (fetch_loop_turn _ _ _ _ _ _ _ _ _ _ Hget), Htruthy, Hlen.
  destruct data; try reflexivity. discriminate.
Qed.

Lemma fetch_loop_rides_without_length_witness :
  fetch_loop
    {| remote := fun _ _ =>
         Answered {| status_code := 200;
                     body_json := Some (JObj [("rides", JNum 3)]) |};
       callback_query := fun _ => [];
       token_bytes := fun n => repeat 0%Z n;
       now_isoformat := "2026-01-01T00:00:00";
       now_strftime := "20260101_000000" |}
    1 Scenarios.bearer (Scenarios.rides_of_size 100) 2
    (Some Scenarios.first_candidate) Scenarios.empty_world =
  (Raises TypeError,
   Reference.after_request Scenarios.empty_world
     (Reference.pinned_request Scenarios.bearer Scenarios.first_candidate 2)).
Proof.
  apply (fetch_loop_rides_without_length _ _ 0 _ 2 _ (Some Scenarios.first_candidate)
           (JObj [("rides", JNum 3)])).
  - reflexivity.
  - reflexivity.
  - reflexivity.
Defined.

(** ** Export and token file *)

Section ExportEdges.
Import Reference.

Lemma write_rides_stops_at_bad_ride (filename : string)
    (before : list (list (string * json))) (bad : json) (after : list json) :
  isinstance_dict bad = false ->
  forall (rows : list (list json)) (w : world),
    files w !! filename = Some (CsvRows rows) ->
    write_rides filename (map JObj before ++ bad :: after) w =
    (Raises AttributeError,
     {| files := <[filename := CsvRows (rows ++ map cells before)]> (files w);
        sent := sent w |}).
Proof.
  intros Hbad. induction before as [|items before IH]; intros rows w Hfile.
  - cbn [map app write_rides]. unfold bind, row_of.
    rewrite app_nil_r, insert_id by exact Hfile.
    destruct bad; try discriminate; now destruct w.
  - cbn [map app write_rides row_of]. unfold bind at 1. cbn [ret].
    unfold bind at 1, DictWriter_writerow, csv_writerow. rewrite Hfile, writerow_cells.
    rewrite (IH (rows ++ [cells items])) by (cbn; apply lookup_insert_eq).
    cbn [files sent]. now rewrite insert_insert_eq, <- app_assoc.
Qed.

End ExportEdges.

(** X12.  A ride that is not a JSON object (a string, a number, a list)
    stops [export_to_csv] with [AttributeError]: the file then holds the
    header and the rows of the records before that ride, and nothing of
    the rides after it. *)
Theorem export_to_csv_stops_at_bad_ride (filename : string)
    (before : list (list (string * json))) (bad : json) (after : list json)
    (w : world) :
  isinstance_dict bad = false ->
  export_to_csv (map JObj before ++ bad :: after) filename w =
  (Raises AttributeError,
   {| files := <[filename := CsvRows (map JStr fieldnames :: map Reference.cells before)]>
                 (files w);
      sent := sent w |}).
Proof.
  intros Hbad. unfold export_to_csv.
  assert (truthy (JArr (map JObj before ++ bad :: after)) = true) as ->
    by (destruct before; reflexivity).
  cbn [negb]. unfold bind at 1, write_file.
  unfold bind at 1, DictWriter_writeheader, DictWriter_writerow, csv_writerow.
  cbn [files sent]. rewrite lookup_insert_eq, writerow_cells.
  rewrite (write_rides_stops_at_bad_ride filename before bad after Hbad
             [map JStr fieldnames]) by (cbn; apply lookup_insert_eq).
  cbn [files sent app]. now rewrite !insert_insert_eq.
Qed.

Lemma export_to_csv_stops_at_bad_ride_witness :
  export_to_csv
    (map JObj [Scenarios.three_field_record] ++ JStr "not a ride" :: [Scenarios.sample_ride])
    "rides.csv" Scenarios.empty_world =
  (Raises AttributeError,
   {| files := <["rides.csv" :=
                  CsvRows (map JStr fieldnames
                             :: map Reference.cells [Scenarios.three_field_record])]>
                 (files Scenarios.empty_world);
      sent := sent Scenarios.empty_world |}).
Proof.
  apply (export_to_csv_stops_at_bad_ride "rides.csv" [Scenarios.three_field_record]
           (JStr "not a ride") [Scenarios.sample_ride] Scenarios.empty_world).
  reflexivity.
Defined.

Lemma write_rides_sent (filename : string) (rides : list json) :
  forall w, sent (snd (write_rides filename rides w)) = sent w.
Proof.
  induction rides as [|ride rides IH]; intros w; [reflexivity|].
  cbn [write_rides]. unfold bind at 1, row_of.
  destruct ride; try reflexivity.
  cbn [ret]. unfold bind at 1, DictWriter_writerow, csv_writerow.
  now rewrite IH.
Qed.

(** X13.  Whatever the rides are (well formed or not) and however the call
    ends, [export_to_csv] changes no file other than the one it was asked
    to write, and sends nothing. *)
Theorem export_to_csv_touches_one_file (rides : list json) (filename path : string)
    (w : world) :
  path <> filename ->
  files (snd (export_to_csv rides filename w)) !! path = files w !! path
  /\ sent (snd (export_to_csv rides filename w)) = sent w.
Proof.
  intros Hne. split; [now apply export_to_csv_other|].
  unfold export_to_csv. destruct (negb (truthy (JArr rides))); [reflexivity|].
  unfold bind at 1, write_file.
  unfold bind at 1, DictWriter_writeheader, DictWriter_writerow, csv_writerow.
  now rewrite write_rides_sent.
Qed.

Lemma export_to_csv_touches_one_file_witness :
  files (snd (export_to_csv [Scenarios.sample_ride; JNum 7] "rides.csv"
                Scenarios.stored_world)) !! TOKENS_FILE
    = files Scenarios.stored_world !! TOKENS_FILE
  /\ sent (snd (export_to_csv [Scenarios.sample_ride; JNum 7] "rides.csv"
                  Scenarios.stored_world)) = sent Scenarios.stored_world.
Proof.
  apply (export_to_csv_touches_one_file [Scenarios.sample_ride; JNum 7] "rides.csv"
           TOKENS_FILE Scenarios.stored_world).
  discriminate.
Defined.

Section FetchAndExport.
Import Reference.
Variable E : environment.

Lemma fetch_and_export_runs (fuel : nat) (access_token refresh_token : json) (w : world) :
  fetch_and_export E fuel access_token refresh_token w =
  match fetch_all_rides E fuel access_token w with
  | (Returns rides, w1) =>
      if truthy (JArr rides) then
        match export_to_csv rides (csv_filename E) w1 with
        | (Returns _, w2) => write_file (json_filename E) (JsonText (JArr rides)) w2
        | (Raises e, w2) => (Raises e, w2)
        | (Exits c, w2) => (Exits c, w2)
        | (Unfinished, w2) => (Unfinished, w2)
        end
      else (Returns tt, w1)
  | (Raises e, w1) => (Raises e, w1)
  | (Exits c, w1) => (Exits c, w1)
  | (Unfinished, w1) => (Unfinished, w1)
  end.
Proof.
  unfold fetch_and_export, bind, csv_filename, json_filename.
  destruct (fetch_all_rides E fuel access_token w) as [[rides| | |] w1]; try reflexivity.
  destruct (truthy (JArr rides)); reflexivity.
Qed.

End FetchAndExport.

(** X14.  When the fetch returns a non-empty list of JSON objects,
    [fetch_and_export] writes two files next to whatever exists: the CSV
    file with the header and one row per ride, and the JSON file with
    exactly the rides fetched, in order; it returns normally and sends
    nothing beyond the requests of the fetch. *)
Theorem fetch_and_export_writes_both (E : environment) (fuel : nat)
    (access_token refresh_token : json) (records : list (list (string * json)))
    (w w1 : world) :
  fetch_all_rides E fuel access_token w = (Returns (map JObj records), w1) ->
  records <> [] ->
  fetch_and_export E fuel access_token refresh_token w =
  (Returns tt,
   {| files :=
        <[Reference.json_filename E := JsonText (JArr (map JObj records))]>
          (<[Reference.csv_filename E :=
               CsvRows (map JStr fieldnames :: map Reference.cells records)]> (files w));
      sent := sent w1 |}).
Proof.
  intros Hfetch Hne. rewrite fetch_and_export_runs, Hfetch.
  assert (truthy (JArr (map JObj records)) = true) as ->
    by (destruct records; [contradiction | reflexivity]).
  rewrite export_to_csv_rows by exact Hne. unfold write_file. cbn [files sent].
  pose proof (fetch_loop_files E access_token fuel [] 1 None w) as Hfiles.
  fold (fetch_all_rides E fuel access_token w) in Hfiles.
  rewrite Hfetch in Hfiles. cbn [snd] in Hfiles. now rewrite Hfiles.
Qed.

Lemma fetch_and_export_writes_both_witness :
  fetch_and_export (Scenarios.rides_api [5]%nat) 1 Scenarios.bearer JNull
    Scenarios.empty_world =
  (Returns tt,
   {| files :=
        <[Reference.json_filename (Scenarios.rides_api [5]%nat) :=
            JsonText (JArr (map JObj (repeat
              [ ("rideId", JStr "ride-1"); ("state", JStr "COMPLETED");
                ("totalDue", JNum 12) ] 5)))]>
          (<[Reference.csv_filename (Scenarios.rides_api [5]%nat) :=
               CsvRows (map JStr fieldnames
                          :: map Reference.cells (repeat
                               [ ("rideId", JStr "ride-1"); ("state", JStr "COMPLETED");
                                 ("totalDue", JNum 12) ] 5))]>
             (files Scenarios.empty_world));
      sent := sent (Scenarios.world_after_pages 1) |}).
Proof.
  apply (fetch_and_export_writes_both (Scenarios.rides_api [5]%nat) 1 Scenarios.bearer JNull
           (repeat [ ("rideId", JStr "ride-1"); ("state", JStr "COMPLETED");
                     ("totalDue", JNum 12) ] 5)
           Scenarios.empty_world (Scenarios.world_after_pages 1)).
  - vm_compute. reflexivity.
  - discriminate.
Defined.

(** X15.  When the fetch returns no ride, or does not return at all (it
    raises, or is still running), [fetch_and_export] writes no file: the
    file system is as before. *)
Theorem fetch_and_export_writes_nothing (E : environment) (fuel : nat)
    (access_token refresh_token : json) (w : world) :
  (forall rides w1,
     fetch_all_rides E fuel access_token w = (Returns rides, w1) -> rides = []) ->
  files (snd (fetch_and_export E fuel access_token refresh_token w)) = files w
  /\ snd (fetch_and_export E fuel access_token refresh_token w) =
     snd (fetch_all_rides E fuel access_token w).
Proof.
  intros Hempty. rewrite fetch_and_export_runs.
  pose proof (fetch_loop_files E access_token fuel [] 1 None w) as Hfiles.
  fold (fetch_all_rides E fuel access_token w) in Hfiles.
  destruct (fetch_all_rides E fuel access_token w) as [[rides| | |] w1];
    cbn [snd] in Hfiles |- *; try (split; [exact Hfiles | reflexivity]).
  rewrite (Hempty rides w1 eq_refl). cbn [truthy snd].
  split; [exact Hfiles | reflexivity].
Qed.

Lemma fetch_and_export_writes_nothing_witness :
  files (snd (fetch_and_export (Scenarios.rides_api []) 1 Scenarios.bearer JNull
                Scenarios.stored_world)) = files Scenarios.stored_world.
Proof.
  destruct (fetch_and_export_writes_nothing (Scenarios.rides_api []) 1 Scenarios.bearer
              JNull Scenarios.stored_world) as [Hfiles _].
  - intros rides w1 Hrun. vm_compute in Hrun. now injection Hrun as <- _.
  - exact Hfiles.
Defined.

(** X16.  [load_tokens] after [save_tokens] returns the pair that was
    saved, whatever the two values are and whatever the token file held
    before. *)
Theorem load_tokens_after_save (E : environment) (access_token refresh_token : json)
    (w : world) :
  load_tokens (snd (save_tokens E access_token refresh_token w)) =
  (Returns (access_token, refresh_token),
   snd (save_tokens E access_token refresh_token w)).
Proof.
  rewrite save_tokens_spec. cbn [snd]. rewrite load_tokens_spec. cbn [files].
  now rewrite lookup_insert_eq.
Qed.

(** ** The decision table of [main] *)

(** X17.  First run: with no callback URL and no usable stored tokens (the
    token file is missing, is not JSON, or is a JSON object in which the
    access token or the refresh token is missing or empty), [main] only
    starts a login: it writes the new verifier, sends no request and
    touches no other file. *)
Theorem main_starts_login (E : environment) (fuel : nat) (argv : list string)
    (w : world) :
  given (nth_error argv 1) = false ->
  (forall v, files w !! TOKENS_FILE = Some (JsonText v) ->
             exists items,
               v = JObj items
               /\ truthy (dict_get items "access_token" JNull)
                  && truthy (dict_get items "refresh_token" JNull) = false) ->
  main E fuel argv w =
  (Returns tt,
   {| files := <[PKCE_FILE := Reference.pkce_file (token_urlsafe E 32)]> (files w);
      sent := sent w |}).
Proof.
  intros Hgiven Hstored. unfold main. unfold bind at 1. rewrite load_tokens_spec.
  cbv zeta. rewrite !Hgiven.
  destruct (files w !! TOKENS_FILE) as [[v| |]|] eqn:Hfile.
  - destruct (Hstored v eq_refl) as (items & -> & Hfalsy). rewrite Hfalsy.
    cbn [andb]. unfold bind at 1. cbn [ret].
    destruct (nth_error argv 1); reflexivity.
  - cbn [truthy andb]. unfold bind at 1. cbn [ret].
    destruct (nth_error argv 1); reflexivity.
  - cbn [truthy andb]. unfold bind at 1. cbn [ret].
    destruct (nth_error argv 1); reflexivity.
  - cbn [truthy andb]. unfold bind at 1. cbn [ret].
    destruct (nth_error argv 1); reflexivity.
Qed.

Lemma main_starts_login_witness :
  main (Scenarios.rides_api []) 1 ["robotaxi_history.py"] Scenarios.empty_world =
  (Returns tt,
   {| files := <[PKCE_FILE := Reference.pkce_file (token_urlsafe (Scenarios.rides_api []) 32)]>
                 (files Scenarios.empty_world);
      sent := sent Scenarios.empty_world |}).
Proof.
  apply (main_starts_login (Scenarios.rides_api []) 1 ["robotaxi_history.py"]
           Scenarios.empty_world).
  - reflexivity.
  - intros v Hv. vm_compute in Hv. discriminate.
Defined.

(** X18.  Refused refresh: with stored tokens and no callback URL, when the
    token endpoint answers the refresh with a status other than 200, [main]
    falls back to starting a login.  It has sent the one refresh request
    and nothing else (no ride is fetched), the stored tokens are left as
    they were, a new verifier is pending, and the run ends normally. *)
Theorem main_refresh_refused (E : environment) (fuel : nat) (argv : list string)
    (w : world) (items : list (string * json)) (r : response) :
  given (nth_error argv 1) = false ->
  files w !! TOKENS_FILE = Some (JsonText (JObj items)) ->
  truthy (dict_get items "access_token" JNull) = true ->
  truthy (dict_get items "refresh_token" JNull) = true ->
  remote E (sent w) (Reference.refresh_request (dict_get items "refresh_token" JNull))
    = Answered r ->
  status_code r <> 200%Z ->
  main E fuel argv w =
    (Returns tt,
     {| files := <[PKCE_FILE := Reference.pkce_file (token_urlsafe E 32)]> (files w);
        sent := sent w ++
                [Reference.refresh_request (dict_get items "refresh_token" JNull)] |})
  /\ files (snd (main E fuel argv w)) !! TOKENS_FILE = Some (JsonText (JObj items)).
Proof.
  intros Hgiven Hfile Ha Hr Hremote Hne.
  assert (Hmain :
    main E fuel argv w =
    (Returns tt,
     {| files := <[PKCE_FILE := Reference.pkce_file (token_urlsafe E 32)]> (files w);
        sent := sent w ++
                [Reference.refresh_request (dict_get items "refresh_token" JNull)] |})).
  { unfold main. unfold bind at 1. rewrite load_tokens_spec, Hfile, Ha, Hr.
    cbv zeta. rewrite !Hgiven.
    cbn [andb negb]. unfold bind at 1. unfold bind at 1.
    rewrite (authenticate_answered E _ w r Hremote).
    destruct (Z.eqb_spec (status_code r) 200); [contradiction|]. cbn [truthy ret].
    destruct (nth_error argv 1); reflexivity. }
  split; [exact Hmain|]. rewrite Hmain. cbn [snd files].
  rewrite lookup_insert_ne by discriminate. exact Hfile.
Qed.

Lemma main_refresh_refused_witness :
  files (snd (main (Scenarios.login_env (Answered {| status_code := 400; body_json := None |}))
                1 ["robotaxi_history.py"] Scenarios.stored_world))
    !! TOKENS_FILE =
  Some (JsonText (JObj [ ("access_token", JStr "old-access");
                         ("refresh_token", JStr "old-refresh");
                         ("saved_at", JStr "2025-12-31T00:00:00") ])).
Proof.
  destruct (main_refresh_refused
              (Scenarios.login_env (Answered {| status_code := 400; body_json := None |}))
              1 ["robotaxi_history.py"] Scenarios.stored_world
              [ ("access_token", JStr "old-access");
                ("refresh_token", JStr "old-refresh");
                ("saved_at", JStr "2025-12-31T00:00:00") ]
              {| status_code := 400; body_json := None |}) as [_ Hkept].
  - reflexivity.
  - vm_compute. reflexivity.
  - reflexivity.
  - reflexivity.
  - reflexivity.
  - discriminate.
  - exact Hkept.
Defined.

(** X19.  A callback URL takes precedence over stored tokens: when a
    callback URL is given but no verifier is pending, [main] ends through
    [sys.exit(1)] having sent nothing and written nothing; stored tokens,
    however valid, are not used for a refresh. *)
Theorem main_callback_without_pending_login (E : environment) (fuel : nat)
    (script url : string) (more : list string) (w : world) :
  url <> ""%string ->
  (forall v, files w !! TOKENS_FILE = Some (JsonText v) -> isinstance_dict v = true) ->
  (forall v, files w !! PKCE_FILE = Some (JsonText v) ->
             exists items, v = JObj items
                           /\ truthy (dict_get items "code_verifier" JNull) = false) ->
  main E fuel (script :: url :: more) w = (Exits 1, w).
Proof.
  intros Hurl Hstored Hpending.
  assert (exists stored, load_tokens w = (Returns stored, w)) as [stored Hload].
  { rewrite load_tokens_spec.
    destruct (files w !! TOKENS_FILE) as [[v| |]|] eqn:Hfile; eauto.
    specialize (Hstored v eq_refl). destruct v; try discriminate. eauto. }
  rewrite (main_with_callback E fuel script url more w stored Hurl Hload).
  destruct (load_pkce_nothing_pending w Hpending) as (v & Hpkce & Hfalsy).
  unfold bind at 1, complete_auth. unfold bind at 1. now rewrite Hpkce, Hfalsy.
Qed.

Lemma main_callback_without_pending_login_witness :
  main (Scenarios.login_env (Scenarios.token_answer 200 [])) 1
    ["robotaxi_history.py"; Scenarios.callback] Scenarios.stored_world =
  (Exits 1, Scenarios.stored_world).
Proof.
  apply (main_callback_without_pending_login
           (Scenarios.login_env (Scenarios.token_answer 200 [])) 1
           "robotaxi_history.py" Scenarios.callback [] Scenarios.stored_world).
  - discriminate.
  - intros v Hv. vm_compute in Hv. injection Hv as <-. reflexivity.
  - intros v Hv. vm_compute in Hv. discriminate.
Defined.

(** X20.  A token file that holds JSON other than an object (a list, a
    string, [null]) stops every run at once: [load_tokens] catches only a
    missing file and text that is not JSON, so [main] ends with
    [AttributeError] before any request or file write, with or without a
    callback URL. *)
Theorem main_token_file_not_an_object (E : environment) (fuel : nat)
    (argv : list string) (w : world) (v : json) :
  files w !! TOKENS_FILE = Some (JsonText v) ->
  isinstance_dict v = false ->
  main E fuel argv w = (Raises AttributeError, w).
Proof.
  intros Hfile Hnot. unfold main. unfold bind at 1.
  rewrite load_tokens_spec, Hfile. destruct v; try reflexivity. discriminate.
Qed.

Lemma main_token_file_not_an_object_witness :
  main (Scenarios.rides_api []) 1 ["robotaxi_history.py"; Scenarios.callback]
    {| files := {[ TOKENS_FILE := JsonText (JArr []) ]}; sent := [] |} =
  (Raises AttributeError,
   {| files := {[ TOKENS_FILE := JsonText (JArr []) ]}; sent := [] |}).
Proof.
  apply (main_token_file_not_an_object (Scenarios.rides_api []) 1
           ["robotaxi_history.py"; Scenarios.callback]
           {| files := {[ TOKENS_FILE := JsonText (JArr []) ]}; sent := [] |} (JArr [])).
  - vm_compute. reflexivity.
  - reflexivity.
Defined.

(** ** [format_duration] *)

Section Durations.
Variable int_of_str : string -> option Z.
Variable str_of_container : json -> string.

(** X21.  For a number of seconds that is not negative, the text of
    [format_duration] is built from hours, minutes and seconds that add up
    to the input, with minutes and seconds below 60; the hours are shown
    only when there is at least one, the minutes when there is an hour or a
    minute. *)
Theorem format_duration_parts (seconds : Z) :
  (0 <= seconds)%Z ->
  exists h m s : Z,
    seconds = (3600 * h + 60 * m + s)%Z
    /\ (0 <= h)%Z /\ (0 <= m < 60)%Z /\ (0 <= s < 60)%Z
    /\ format_duration int_of_str str_of_container (JNum seconds) =
       if (0 <? h)%Z then
         (pretty h ++ "h " ++ pretty m ++ "m " ++ pretty s ++ "s")%string
       else if (0 <? m)%Z then (pretty m ++ "m " ++ pretty s ++ "s")%string
       else (pretty s ++ "s")%string.
Proof.
  intros Hpos.
  exists (seconds / 3600)%Z, ((seconds mod 3600) / 60)%Z, (seconds mod 60)%Z.
  split; [|split; [|split; [|split]]].
  - Z.div_mod_to_equations. lia.
  - Z.div_mod_to_equations. lia.
  - Z.div_mod_to_equations. lia.
  - Z.div_mod_to_equations. lia.
  - reflexivity.
Qed.

(** X22.  A negative number of seconds is not shown as negative: the
    (negative) hours are dropped and the text is that of the remainder
    modulo one hour, so that -1 reads as 59 minutes 59 seconds. *)
Theorem format_duration_negative (seconds : Z) :
  (seconds < 0)%Z ->
  format_duration int_of_str str_of_container (JNum seconds) =
  format_duration int_of_str str_of_container (JNum (seconds mod 3600)).
Proof.
  intros Hneg. unfold format_duration. cbn [is_None py_int]. cbv zeta.
  assert ((0 <? seconds / 3600)%Z = false) as ->
    by (apply Z.ltb_ge; Z.div_mod_to_equations; lia).
  assert ((0 <? seconds mod 3600 / 3600)%Z = false) as ->
    by (apply Z.ltb_ge; Z.div_mod_to_equations; lia).
  assert (((seconds mod 3600) mod 3600 = seconds mod 3600)%Z) as ->
    by (Z.div_mod_to_equations; lia).
  assert (((seconds mod 3600) mod 60 = seconds mod 60)%Z) as ->
    by (Z.div_mod_to_equations; lia).
  reflexivity.
Qed.

End Durations.

Lemma format_duration_parts_witness :
  format_duration (fun _ => None) (fun _ => ""%string) (JNum 3725) = "1h 2m 5s"%string.
Proof.
  destruct (format_duration_parts (fun _ => None) (fun _ => ""%string) 3725)
    as (h & m & s & Hsum & Hh & Hm & Hs & Htext); [lia|].
  assert (h = 1 /\ m = 2 /\ s = 5)%Z as (-> & -> & ->) by lia.
  exact Htext.
Defined.

Lemma format_duration_negative_witness :
  format_duration (fun _ => None) (fun _ => ""%string) (JNum (-1)) = "59m 59s"%string.
Proof.
  rewrite (format_duration_negative (fun _ => None) (fun _ => ""%string) (-1)) by lia.
  reflexivity.
Defined.

(** ** The proxy, for every upstream behaviour *)

Section ProxyInvariants.
Import server.
Variable urlopen : list Request -> Request -> upstream.

Lemma try_endpoints_shape (auth_header : string) (urls : list string) :
  forall contacted,
  exists tried rest,
    urls = tried ++ rest
    /\ snd (try_endpoints urlopen auth_header urls contacted) =
         contacted ++ map (upstream_request auth_header) tried
    /\ match fst (try_endpoints urlopen auth_header urls contacted) with
       | Sent r =>
           tried <> [] /\ status r = 200%Z
           /\ In ("Access-Control-Allow-Origin", "*"%string) (headers r)
       | Raised (HTTPError code) => tried <> [] /\ code = 401%Z
       | Raised (OtherError _) => tried <> []
       | Exhausted => rest = []
       end.
Proof.
  induction urls as [|u urls IH]; intros contacted.
  - exists [], []. cbn. now rewrite app_nil_r.
  - cbn [try_endpoints].
    destruct (urlopen contacted (upstream_request auth_header u)) as [data|[code|message]].
    + exists [u], urls. cbn. repeat split; auto; discriminate.
    + destruct (Z.eqb_spec code 401) as [->|Hne].
      * exists [u], urls. cbn. repeat split; discriminate.
      * destruct (IH (contacted ++ [upstream_request auth_header u]))
          as (tried & rest & -> & Hsent & Hout).
        exists (u :: tried), rest. split; [reflexivity|]. split.
        -- rewrite Hsent. cbn [map]. now rewrite <- app_assoc.
        -- destruct (fst (try_endpoints urlopen auth_header (tried ++ rest) _))
             as [r|[c|m]|]; intuition discriminate.
    + exists [u], urls. cbn. repeat split; discriminate.
Qed.

End ProxyInvariants.

(** X23.  Whatever the upstream hosts do, [proxy_rides_request] asks a
    non-empty initial part of the two candidates, in their order and each
    with the caller's [Authorization] header, and replies with one of the
    statuses 200, 401, 500 and 502: an upstream status such as 403 or 404
    is never passed on.  The reply carries the CORS header
    [Access-Control-Allow-Origin] exactly when its status is 200 or 401. *)
Theorem proxy_rides_request_shape
    (urlopen : list server.Request -> server.Request -> server.upstream)
    (urlparse_query : string -> string)
    (path : string) (request_headers : list (string * string)) :
  let auth_header := server.headers_get request_headers "Authorization" "" in
  let result := server.proxy_rides_request urlopen urlparse_query path request_headers in
  (exists tried rest,
     server.endpoints (urlparse_query path) = tried ++ rest
     /\ tried <> []
     /\ snd result = map (server.upstream_request auth_header) tried)
  /\ In (server.status (fst result)) [200; 401; 500; 502]%Z
  /\ (In ("Access-Control-Allow-Origin", "*"%string) (server.headers (fst result))
      <-> In (server.status (fst result)) [200; 401]%Z).
Proof.
  intros auth_header result. subst result. unfold server.proxy_rides_request.
  fold auth_header.
  destruct (try_endpoints_shape urlopen auth_header
              (server.endpoints (urlparse_query path)) [])
    as (tried & rest & Hsplit & Hsent & Hout).
  destruct (server.try_endpoints urlopen auth_header
              (server.endpoints (urlparse_query path)) []) as [out contacted].
  cbn [fst snd app] in Hsent, Hout. subst contacted.
  destruct out as [r|[code|message]|]; cbn [fst snd].
  - destruct Hout as (Hne & H200 & Hcors). rewrite H200.
    split; [eauto|]. split; [cbn; auto|]. split; [cbn; auto | auto].
  - destruct Hout as (Hne & ->). cbn [server.status server.headers].
    split; [eauto|]. split; [cbn; auto|]. split; cbn; auto.
  - cbn [server.status server.headers].
    split; [eauto|]. split; [cbn; auto|].
    split; cbn; intuition discriminate.
  - subst rest. cbn [server.status server.headers].
    split.
    + exists tried, []. split; [exact Hsplit|]. split; [|reflexivity].
      intros ->. discriminate.
    + split; [cbn; auto|]. split; cbn; intuition discriminate.
Qed.

(** X24.  A token request without a [Content-Length] header, in any
    spelling of the name, is forwarded with an empty body, whatever body the
    client sent; the token endpoint is asked exactly once. *)
Theorem proxy_token_request_without_length
    (urlopen : server.TokenRequest -> server.token_upstream)
    (int_of_str : string -> option Z) (value_error : string -> string)
    (read_error : string)
    (request_headers : list (string * string)) (rfile : string) :
  server.headers_find request_headers "Content-Length" = None ->
  snd (server.proxy_token_request urlopen int_of_str value_error read_error
         request_headers rfile) =
  [ {| server.token_url := "https://auth.tesla.com/oauth2/v3/token";
       server.token_data := "";
       server.token_headers :=
         [ ("Content-Type", "application/x-www-form-urlencoded") ] |} ].
Proof.
  intros Hnone. unfold server.proxy_token_request. rewrite Hnone.
  unfold server.forward_token_request.
  assert (server.rfile_read 0 rfile = Some ""%string) as ->
    by (destruct rfile; reflexivity).
  unfold server.send_token_request. cbv zeta. destruct (urlopen _); reflexivity.
Qed.

Lemma proxy_token_request_without_length_witness :
  snd (server.proxy_token_request (fun _ => server.TokenOpened "{}") (fun _ => None)
         (fun text => text) "read length must be non-negative or -1"
         [ ("Content-Type", "application/x-www-form-urlencoded") ]
         "grant_type=refresh_token&refresh_token=old-refresh") =
  [ {| server.token_url := "https://auth.tesla.com/oauth2/v3/token";
       server.token_data := "";
       server.token_headers :=
         [ ("Content-Type", "application/x-www-form-urlencoded") ] |} ].
Proof.
  apply proxy_token_request_without_length. reflexivity.
Defined.

(** ** More edges of the fetch *)

(** X25.  Once an endpoint is pinned there is no handler around the
    request: when the pinned endpoint cannot be reached, or answers 200
    with a body that is not JSON, the loop ends with the exception and
    does not return the rides gathered from the earlier pages (unlike a
    refusal by status, after which they are returned). *)
Theorem fetch_loop_pinned_exception (E : environment) (token : json) (fuel : nat)
    (all_rides : list json) (page : nat) (c : string * string) (w : world) :
  (remote E (sent w) (Reference.pinned_request token c page) = ConnectionFailed
   \/ exists r, remote E (sent w) (Reference.pinned_request token c page) = Answered r
                /\ status_code r = 200%Z /\ body_json r = None) ->
  exists e,
    fetch_loop E (S fuel) token all_rides page (Some c) w =
    (Raises e, Reference.after_request w (Reference.pinned_request token c page))
    /\ is_RequestException e = true.
Proof.
  intros Hremote.
  pose proof (get_ride_history_pinned E token page c w) as Hget.
  destruct Hremote as [Hr | (r & Hr & H200 & Hbody)]; rewrite Hr in Hget.
  - exists RequestException. split; [|reflexivity].
    cbn [fetch_loop]. unfold bind at 1. now rewrite Hget.
  - rewrite H200, Hbody in Hget. change (200 =? 200)%Z with true in Hget.
    exists RequestsJSONDecodeError. split; [|reflexivity].
    cbn [fetch_loop]. unfold bind at 1. now rewrite Hget.
Qed.

Lemma fetch_loop_pinned_exception_witness :
  exists e,
    fetch_loop (Scenarios.fake_env Scenarios.first_candidate [100]%nat ConnectionFailed)
      1 Scenarios.bearer (Scenarios.rides_of_size 100) 2
      (Some Scenarios.second_candidate) Scenarios.empty_world =
    (Raises e,
     Reference.after_request Scenarios.empty_world
       (Reference.pinned_request Scenarios.bearer Scenarios.second_candidate 2))
    /\ is_RequestException e = true.
Proof.
  apply (fetch_loop_pinned_exception
           (Scenarios.fake_env Scenarios.first_candidate [100]%nat ConnectionFailed)
           Scenarios.bearer 0 (Scenarios.rides_of_size 100) 2
           Scenarios.second_candidate Scenarios.empty_world).
  left. reflexivity.
Defined.

(** X26.  Two edges of the response-format cascade.  When the payload's
    ['data'] is an object without ['rides'], the ride list is empty even if
    the payload has a top-level ['rides'] list; and a top-level ['rides']
    key wins by being present, so a [null] there hides a list under
    ['data'] and ends the pagination. *)
Theorem extract_rides_shadowing (items : list (string * json)) :
  (forall inner,
     lookup_item items "data" = Some (JObj inner) ->
     lookup_item inner "rides" = None ->
     extract_rides (JObj items) = JArr [])
  /\ (forall rides,
        lookup_item items "rides" = Some JNull ->
        lookup_item items "data" = Some (JArr rides) ->
        extract_rides (JObj items) = JNull
        /\ truthy (extract_rides (JObj items)) = false).
Proof.
  split.
  - intros inner Hdata Hrides. cbn [extract_rides]. rewrite Hdata.
    unfold dict_get. now rewrite Hrides.
  - intros rides Hrides Hdata. cbn [extract_rides]. rewrite Hdata.
    assert (dict_get items "rides" (dict_get items "data" (JArr [])) = JNull) as ->
      by (unfold dict_get at 1; now rewrite Hrides).
    split; reflexivity.
Qed.

Lemma extract_rides_shadowing_witness :
  extract_rides (JObj [ ("data", JObj [("count", JNum 1)]);
                        ("rides", JArr [Scenarios.sample_ride]) ]) = JArr [].
Proof.
  destruct (extract_rides_shadowing
              [ ("data", JObj [("count", JNum 1)]);
                ("rides", JArr [Scenarios.sample_ride]) ]) as [Hnested _].
  apply (Hnested [("count", JNum 1)]); reflexivity.
Defined.



(** Header names are found whatever their case, and a length below -1 is
    answered with 500 without asking the token endpoint. *)
Example headers_ignore_case :
  server.headers_get [ ("authorization", "Bearer access-1") ] "Authorization" ""
    = "Bearer access-1"%string
  /\ server.headers_find [ ("content-length", "7") ] "Content-Length" = Some "7"%string
  /\ server.proxy_token_request (fun _ => server.TokenOpened "{}") (fun _ => Some (-5)%Z)
       (fun text => text) "read length must be non-negative or -1"
       [ ("Content-Length", "-5") ] "a=b&c=d" =
     ({| server.status := 500;
         server.headers := [ ("Content-Type", "application/json") ];
         server.body :=
           server.JsonDumps
             (JObj [("error", JStr "read length must be non-negative or -1")]) |}, []).
Proof. repeat split. Qed.
